(** * bk-cli: the Buildkite client, its data model and the build formatter

    A shallow embedding of [bk.py] and [display.py].

    - Python [str] is modelled by [string]; a character stands for one code
      point (the model covers code points below 256).
    - Python [int] is [Z]; [float] is an IEEE 754 binary64 value, written as
      a [spec_float] of the Standard Library.
    - Decoded JSON (the [dict]/[list] values returned by [response.json()])
      is the inductive type [json]; subscripting and iteration raise the
      exceptions Python raises.
    - The HTTP transport ([requests.get]/[requests.post]) and the pattern
      compiler of [re] are parameters of the development; every request that
      is sent is recorded in the state, next to the client object. *)

From Stdlib Require Import String Ascii List ZArith Lia Bool Arith.
From Stdlib Require Import Floats.SpecFloat.
From Stdlib Require Import Numbers.DecimalString.
From Stdlib Require DecimalPos DecimalZ.
Import ListNotations.

Local Open Scope string_scope.
Local Open Scope Z_scope.

(** ** Strings *)

Definition dquote : string := String (ascii_of_nat 34) EmptyString.
Definition newline : ascii := ascii_of_nat 10.

(** [str(n)] for an [int]. *)
Definition str_of_int (z : Z) : string := NilZero.string_of_int (Z.to_int z).

Fixpoint spaces (n : nat) : string :=
  match n with
  | O => EmptyString
  | S n' => String " " (spaces n')
  end.

(** Format specs [" <w"] and [" >w"]: pad with spaces up to width [w]. *)
Definition ljust (w : nat) (s : string) : string :=
  s ++ spaces (w - String.length s).

Definition rjust (w : nat) (s : string) : string :=
  spaces (w - String.length s) ++ s.

(** [str.isspace] on one character (code points below 256). *)
Definition is_space (c : ascii) : bool :=
  let n := nat_of_ascii c in
  ((9 <=? n) && (n <=? 13) || (28 <=? n) && (n <=? 32)
   || (n =? 133) || (n =? 160))%nat.

(** [str.rstrip()] *)
Fixpoint rstrip (s : string) : string :=
  match s with
  | EmptyString => EmptyString
  | String c s' =>
      match rstrip s' with
      | EmptyString => if is_space c then EmptyString else String c EmptyString
      | r => String c r
      end
  end.

Fixpoint str_in (c : ascii) (s : string) : bool :=
  match s with
  | EmptyString => false
  | String a s' => Ascii.eqb a c || str_in c s'
  end.

Fixpoint last_char (s : string) : option ascii :=
  match s with
  | EmptyString => None
  | String c EmptyString => Some c
  | String _ s' => last_char s'
  end.

(** [x in l] for a list of strings. *)
Definition in_list (x : string) (l : list string) : bool :=
  existsb (String.eqb x) l.

(** ** Exceptions and results *)

Inductive exn : Type :=
| HTTPError (status : Z)
| TransportError
| JSONDecodeError
| KeyError (key : string)
| KeyErrorInt (key : Z)
| IndexError
| TypeError
| ZeroDivisionError
| OverflowError
| ReError
| IllTyped
| BuildkiteNotFoundException (msg : string).

Inductive result (A : Type) : Type :=
| Ok (a : A)
| Raise (e : exn).
Arguments Ok {A} a.
Arguments Raise {A} e.

Definition rbind {A B} (r : result A) (k : A -> result B) : result B :=
  match r with
  | Ok a => k a
  | Raise e => Raise e
  end.

Notation "x <~ c ;; k" := (rbind c (fun x => k))
  (at level 61, c at next level, right associativity).

Fixpoint rmap {A B} (f : A -> result B) (l : list A) : result (list B) :=
  match l with
  | [] => Ok []
  | a :: l' => b <~ f a ;; bs <~ rmap f l' ;; Ok (b :: bs)
  end.

(** A comprehension [[f(x) for x in l if cond(x)]]: for each item the
    condition is evaluated first, then the element; either may raise. *)
Fixpoint rcomp {A B} (cond : A -> result bool) (f : A -> result B) (l : list A)
  : result (list B) :=
  match l with
  | [] => Ok []
  | a :: l' =>
      keep <~ cond a ;;
      if keep then b <~ f a ;; bs <~ rcomp cond f l' ;; Ok (b :: bs)
      else rcomp cond f l'
  end.

(** ** Floats: true division of ints and the [.0f] format *)

(** Nearest integer to [a / b] for [0 < b], ties to the even one. *)
Definition rne_div (a b : Z) : Z :=
  let q := a / b in
  let r := a mod b in
  match 2 * r ?= b with
  | Lt => q
  | Gt => q + 1
  | Eq => if Z.even q then q else q + 1
  end.

(** The binary64 value nearest to [a / b] for [0 < a] and [0 < b]:
    [ex] is the exponent of the quotient, the significand has 53 bits
    (fewer below the normal range). *)
Definition round_quot (s : bool) (a b : Z) : result spec_float :=
  let d := Z.log2 a - Z.log2 b in
  let ex := if b * 2 ^ Z.max 0 d <=? a * 2 ^ Z.max 0 (- d) then d else d - 1 in
  let e := Z.max (ex - 52) (-1074) in
  let m := rne_div (a * 2 ^ Z.max 0 (- e)) (b * 2 ^ Z.max 0 e) in
  let '(m', e') := if m =? 2 ^ 53 then (2 ^ 52, e + 1) else (m, e) in
  match m' with
  | Zpos p => if 971 <? e' then Raise OverflowError
              else Ok (S754_finite s p e')
  | _ => Ok (S754_zero s)
  end.

(** [a / b] on ints: the correctly rounded quotient as a float. *)
Definition py_truediv (a b : Z) : result spec_float :=
  if b =? 0 then Raise ZeroDivisionError
  else if a =? 0 then Ok (S754_zero (b <? 0))
  else round_quot (xorb (a <? 0) (b <? 0)) (Z.abs a) (Z.abs b).

(** [format(x, ".0f")]: the exact value rounded to an integer, ties to even. *)
Definition fmt_f0 (x : spec_float) : string :=
  match x with
  | S754_zero s => if s then "-0" else "0"
  | S754_infinity s => if s then "-inf" else "inf"
  | S754_nan => "nan"
  | S754_finite s m e =>
      let n := if 0 <=? e then Zpos m * 2 ^ e else rne_div (Zpos m) (2 ^ (- e)) in
      (if s then "-" else "") ++ str_of_int n
  end.

(** ** bk.py: constants and data model *)

Definition BASE_URL : string := "https://buildkite.com/retool".
Definition BUILD_FINISHED_STATES : list string :=
  ["SKIPPED"; "PASSED"; "FAILED"; "CANCELED"].
Definition BUILD_RUNNING_STATES : list string :=
  ["CREATING"; "RUNNING"; "FAILING"; "CANCELING"; "BLOCKED"; "SCHEDULED"].
Definition JOB_FINISHED_STATES : list string :=
  ["BLOCKED_FAILED"; "UNBLOCKED_FAILED"; "FINISHED"; "CANCELED"; "TIMED_OUT";
   "SKIPPED"].

Record Pipeline : Type := mkPipeline {
  name : string;
  color : string;
  slug : string
}.

Record Job : Type := mkJob {
  job_state : string;
  passed : bool
}.

Record Build : Type := mkBuild {
  number : Z;
  commit_message : string;
  pipeline : Pipeline;
  state : string;
  jobs : list Job
}.

(** [Build.url] *)
Definition url (self : Build) : string :=
  BASE_URL ++ "/" ++ slug (pipeline self) ++ "/builds/" ++ str_of_int (number self).

(** ** display.py *)

Definition display_build (build : Build) : result string :=
  let total_jobs := Z.of_nat (List.length (jobs build)) in
  let finished_jobs :=
    Z.of_nat (List.length
      (filter (fun job => in_list (job_state job) JOB_FINISHED_STATES) (jobs build))) in
  let output :=
    ljust 50 (name (pipeline build)) ++ " " ++ ljust 10 (str_of_int (number build)) in
  pct <~ py_truediv (finished_jobs * 100) total_jobs ;;
  Ok (output ++
      rstrip (rjust 6 (fmt_f0 pct) ++ "% finished    "
              ++ ljust 20 ("State: " ++ state build))).

(** ** Decoded JSON values and the Python operations used on them *)

#[warnings="-register-all"] Inductive json : Type :=
| JNull
| JBool (b : bool)
| JInt (z : Z)
| JFloat (x : spec_float)
| JStr (s : string)
| JList (l : list json)
| JObj (kv : list (string * json)).

Fixpoint assoc {A} (k : string) (kv : list (string * A)) : option A :=
  match kv with
  | [] => None
  | (k', v) :: kv' => if String.eqb k k' then Some v else assoc k kv'
  end.

(** [x[key]] with a string key. *)
Definition getitem (x : json) (key : string) : result json :=
  match x with
  | JObj kv =>
      match assoc key kv with
      | Some v => Ok v
      | None => Raise (KeyError key)
      end
  | _ => Raise TypeError
  end.

(** [x[0]] *)
Definition getitem0 (x : json) : result json :=
  match x with
  | JList [] => Raise IndexError
  | JList (a :: _) => Ok a
  | JStr EmptyString => Raise IndexError
  | JStr (String c _) => Ok (JStr (String c EmptyString))
  | JObj _ => Raise (KeyErrorInt 0)
  | _ => Raise TypeError
  end.

(** [x[k1][k2]...] *)
Fixpoint getpath (x : json) (keys : list string) : result json :=
  match keys with
  | [] => Ok x
  | k :: keys' => v <~ getitem x k ;; getpath v keys'
  end.

(** [bool(x)] *)
Definition truthy (x : json) : bool :=
  match x with
  | JNull => false
  | JBool b => b
  | JInt z => negb (z =? 0)
  | JFloat (S754_zero _) => false
  | JFloat _ => true
  | JStr s => negb (String.eqb s "")
  | JList l => match l with [] => false | _ => true end
  | JObj kv => match kv with [] => false | _ => true end
  end.

(** [x == 0] *)
Definition eq_zero (x : json) : bool :=
  match x with
  | JInt z => z =? 0
  | JBool b => negb b
  | JFloat (S754_zero _) => true
  | _ => false
  end.

Fixpoint chars (s : string) : list json :=
  match s with
  | EmptyString => []
  | String c s' => JStr (String c EmptyString) :: chars s'
  end.

(** The items a [for] loop over [x] visits. *)
Definition py_iter (x : json) : result (list json) :=
  match x with
  | JList l => Ok l
  | JObj kv => Ok (map (fun p => JStr (fst p)) kv)
  | JStr s => Ok (chars s)
  | _ => Raise TypeError
  end.

(** The record fields are typed as the dataclasses annotate them. Python
    stores whatever the response holds; a value of another type is outside
    the typed model and is reported as [IllTyped]. *)
Definition as_str (x : json) : result string :=
  match x with JStr s => Ok s | _ => Raise IllTyped end.
Definition as_int (x : json) : result Z :=
  match x with JInt z => Ok z | _ => Raise IllTyped end.
Definition as_bool (x : json) : result bool :=
  match x with JBool b => Ok b | _ => Raise IllTyped end.

(** ** The client object, the transport and the regular-expression engine *)

Record Buildkite : Type := mkBuildkite {
  rest_base_url : string;
  graphql_base_url : string;
  org_name : string;
  headers : list (string * string)
}.

Inductive http_method : Type := GET | POST.

Record request : Type := mkRequest {
  req_method : http_method;
  req_url : string;
  req_headers : list (string * string);
  req_json : option json;
  req_allow_redirects : option bool
}.

Record response : Type := mkResponse {
  status_code : Z;
  resp_json : option json;
  content : string
}.

(** The state a method runs in: the client object and the requests sent so
    far, oldest first. *)
Record World : Type := mkWorld {
  self : Buildkite;
  sent : list request
}.

Definition M (A : Type) : Type := World -> result A * World.

Definition ret {A} (a : A) : M A := fun w => (Ok a, w).
Definition throw {A} (e : exn) : M A := fun w => (Raise e, w).
Definition bind {A B} (m : M A) (k : A -> M B) : M B :=
  fun w =>
    match m w with
    | (Ok a, w') => k a w'
    | (Raise e, w') => (Raise e, w')
    end.
Definition lift {A} (r : result A) : M A := fun w => (r, w).
Definition get_self : M Buildkite := fun w => (Ok (self w), w).
Definition put_self (b : Buildkite) : M unit :=
  fun w => (Ok tt, mkWorld b (sent w)).

Notation "x <- c ;; k" := (bind c (fun x => k))
  (at level 61, c at next level, right associativity).

(** A compiled pattern: [m text i j] tells whether the pattern matches the
    slice [text[i:j]] of [text]. *)
Definition matcher : Type := string -> nat -> nat -> bool.

(** The pattern that matches exactly the empty slice. *)
Definition empty_matcher : matcher := fun _ i j => Nat.eqb i j.

(** A pattern without metacharacters matches its own text. *)
Definition literal_matcher (lit : string) : matcher :=
  fun text i j => String.eqb (substring i (j - i) text) lit.

Definition spans (n : nat) : list (nat * nat) :=
  flat_map (fun i => map (fun j => (i, j)) (seq i (S n - i))) (seq 0 (S n)).

(** Some slice of [text] matches. *)
Definition search (m : matcher) (text : string) : bool :=
  existsb (fun ij => m text (fst ij) (snd ij)) (spans (String.length text)).

(** [response.raise_for_status()] *)
Definition raise_for_status (r : response) : result unit :=
  if (400 <=? status_code r) && (status_code r <? 600)
  then Raise (HTTPError (status_code r)) else Ok tt.

(** [response.json()] *)
Definition response_json (r : response) : result json :=
  match resp_json r with
  | Some j => Ok j
  | None => Raise JSONDecodeError
  end.

Section Client.

(** [requests]: the reply to a request, given the requests sent before;
    [None] when the transport fails before any reply arrives. *)
Variable server : list request -> request -> option response.

(** [re.compile] *)
Variable re_compile : string -> result matcher.

(** [re.search(pattern, text)], as a truth value: some slice matches. *)
Definition re_search (pattern : string) (text : json) : result bool :=
  m <~ re_compile pattern ;;
  match text with
  | JStr s => Ok (search m s)
  | _ => Raise TypeError
  end.

Definition send (r : request) : M response :=
  fun w =>
    (match server (sent w) r with
     | Some resp => Ok resp
     | None => Raise TransportError
     end,
     mkWorld (self w) (sent w ++ [r])).

(** [Buildkite.__init__] *)
Definition __init__ (org_name : string) (buildkite_token : string) : M unit :=
  me <- get_self ;;
  put_self (mkBuildkite (rest_base_url me) (graphql_base_url me) org_name
              [("Authorization", "Bearer " ++ buildkite_token);
               ("Content-Type", "application/json")]).

(** A fresh instance: the class attributes, before [__init__] runs. *)
Definition Buildkite_class : Buildkite :=
  mkBuildkite "https://api.buildkite.com/v2" "https://graphql.buildkite.com/v1"
    "" [].

Definition _graphql_post (query : string) (variables : json) : M json :=
  me <- get_self ;;
  response <- send (mkRequest POST (graphql_base_url me) (headers me)
                      (Some (JObj [("query", JStr query); ("variables", variables)]))
                      None) ;;
  _ <- lift (raise_for_status response) ;;
  lift (response_json response).

Definition _rest_post (url : string) (body : json) : M json :=
  me <- get_self ;;
  response <- send (mkRequest POST url (headers me) (Some body) None) ;;
  _ <- lift (raise_for_status response) ;;
  lift (response_json response).

Definition _rest_get (url : string) : M json :=
  me <- get_self ;;
  response <- send (mkRequest GET url (headers me) None None) ;;
  _ <- lift (raise_for_status response) ;;
  lift (response_json response).

Definition getJobArtifactCount_query : string :=
  "
        query getJobArtifactCount($job_id: ID!) {
            job(uuid: $job_id) {
                ... on JobTypeCommand {
                    artifacts {
                        count
                    }
                }
            }
        }
        ".

Definition getJobArtfacts_query : string :=
  "
        query getJobArtfacts($job_id: ID!, $artifact_count: Int) {
            job(uuid: $job_id) {
                ... on JobTypeCommand {
                    artifacts(first: $artifact_count) {
                        edges {
                            node {
                                downloadURL
                            }
                        }
                    }
                }
            }
        }
        ".

Definition getBuildFromCommit_query : string :=
  "
        query getBuildFromCommit($commit_sha: [String!]) {
            pipeline(slug:" ++ dquote ++
  "retool/retool-development-dot-tests" ++ dquote ++
  "){
                builds(commit: $commit_sha) {
                    edges {
                        node {
                            url
                        }
                    }
                }
            }
        }
        ".

Definition getBuildFromBranch_query : string :=
  "
        query getBuildFromBranch($branch: [String!]) {
            pipeline(slug:" ++ dquote ++
  "retool/retool-development-dot-tests" ++ dquote ++
  "){
                builds(branch: $branch) {
                    edges {
                        node {
                            url
                        }
                    }
                }
            }
        }
        ".

Definition GetUserBuilds_query : string :=
  "
        query GetUserBuilds($limit: Int, $state_filter: [BuildStates!]) {
            viewer {
                user {
                    builds(first: $limit, state: $state_filter) {
                        edges {
                            node {
                                pipeline {
                                    name
                                    color
                                    slug
                                }
                                message
                                number
                                state
                                jobs(first: 100) {
                                    edges {
                                        node {
                                            ... on JobTypeCommand {
                                                state
                                                passed
                                            }
                                        }
                                    }
                                }
                            }
                        }
                    }
                }
            }
        }
        ".

Definition get_job_artifact_count (job_id : string) : M json :=
  let query := getJobArtifactCount_query in
  let variables := JObj [("job_id", JStr job_id)] in
  result <- _graphql_post query variables ;;
  lift (getpath result ["data"; "job"; "artifacts"; "count"]).

Definition get_job_artifacts (job_id : string) (regex_filter : option string)
  : M (list json) :=
  artifact_count <- get_job_artifact_count job_id ;;
  if eq_zero artifact_count then ret []
  else
    let query := getJobArtfacts_query in
    let variables :=
      JObj [("job_id", JStr job_id); ("artifact_count", artifact_count)] in
    result <- _graphql_post query variables ;;
    edges <- lift (items <~ getpath result ["data"; "job"; "artifacts"; "edges"] ;;
                   py_iter items) ;;
    lift (rcomp
            (fun edge =>
               match regex_filter with
               | None => Ok true
               | Some pattern =>
                   download_url <~ getpath edge ["node"; "downloadURL"] ;;
                   re_search pattern download_url
               end)
            (fun edge => getitem edge "node")
            edges).

Definition get_build_data (pipeline_slug : string) (build_id : Z) : M json :=
  me <- get_self ;;
  let url :=
    rest_base_url me ++ "/organizations/" ++ org_name me ++ "/pipelines/"
    ++ pipeline_slug ++ "/builds/" ++ str_of_int build_id
    ++ "?include_retried_jobs=true" in
  _rest_get url.

Definition get_artifact_content (artifact_url : string) : M string :=
  me <- get_self ;;
  response <- send (mkRequest GET artifact_url (headers me) None (Some true)) ;;
  _ <- lift (raise_for_status response) ;;
  ret (content response).

Definition create_build (pipeline_slug : string) (env : json) : M json :=
  me <- get_self ;;
  let url :=
    rest_base_url me ++ "/organizations/" ++ org_name me ++ "/pipelines/"
    ++ pipeline_slug ++ "/builds" in
  result <- _rest_post url env ;;
  ret result.

Definition get_build_url_from_commit (commit_sha : string) : M json :=
  let query := getBuildFromCommit_query in
  let variables := JObj [("commit_sha", JStr commit_sha)] in
  result <- _graphql_post query variables ;;
  data <- lift (getitem result "data") ;;
  edges <- lift (getpath data ["pipeline"; "builds"; "edges"]) ;;
  if negb (truthy edges)
  then throw (BuildkiteNotFoundException ("No build found for commit " ++ commit_sha))
  else
    lift (edges' <~ getpath result ["data"; "pipeline"; "builds"; "edges"] ;;
          first <~ getitem0 edges' ;;
          getpath first ["node"; "url"]).

Definition get_build_url_from_branch (branch : string) : M json :=
  let query := getBuildFromBranch_query in
  let variables := JObj [("branch", JStr branch)] in
  result <- _graphql_post query variables ;;
  data <- lift (getitem result "data") ;;
  edges <- lift (getpath data ["pipeline"; "builds"; "edges"]) ;;
  if negb (truthy edges)
  then throw (BuildkiteNotFoundException ("No build found for branch " ++ branch))
  else
    lift (edges' <~ getpath result ["data"; "pipeline"; "builds"; "edges"] ;;
          first <~ getitem0 edges' ;;
          getpath first ["node"; "url"]).

(** The body of the inner loop of [get_user_builds]. *)
Definition job_of_edge (job_edge : json) : result Job :=
  job_node <~ getitem job_edge "node" ;;
  st <~ getitem job_node "state" ;;
  ps <~ getitem job_node "passed" ;;
  st' <~ as_str st ;;
  ps' <~ as_bool ps ;;
  Ok (mkJob st' ps').

(** The body of the outer loop of [get_user_builds]. *)
Definition build_of_edge (build_edge : json) : result Build :=
  build_node <~ getitem build_edge "node" ;;
  job_edges <~ (items <~ getpath build_node ["jobs"; "edges"] ;; py_iter items) ;;
  jobs <~ rmap job_of_edge job_edges ;;
  p_name <~ getpath build_node ["pipeline"; "name"] ;;
  p_color <~ getpath build_node ["pipeline"; "color"] ;;
  p_slug <~ getpath build_node ["pipeline"; "slug"] ;;
  p_name' <~ as_str p_name ;;
  p_color' <~ as_str p_color ;;
  p_slug' <~ as_str p_slug ;;
  let pipeline := mkPipeline p_name' p_color' p_slug' in
  message <~ getitem build_node "message" ;;
  num <~ getitem build_node "number" ;;
  st <~ getitem build_node "state" ;;
  message' <~ as_str message ;;
  num' <~ as_int num ;;
  st' <~ as_str st ;;
  Ok (mkBuild num' message' pipeline st' jobs).

Definition get_user_builds (limit : Z) (show_finished : bool) : M (list Build) :=
  let query := GetUserBuilds_query in
  let state_filters := if show_finished then [] else BUILD_RUNNING_STATES in
  let variables :=
    JObj [("limit", JInt limit);
          ("state_filter", JList (map JStr state_filters))] in
  result <- _graphql_post query variables ;;
  data <- lift (getitem result "data") ;;
  build_edges <- lift (items <~ getpath data ["viewer"; "user"; "builds"; "edges"] ;;
                       py_iter items) ;;
  lift (rmap build_of_edge build_edges).

(** ** The public operations, as one type *)

Inductive operation : Type :=
| OpGetJobArtifactCount (job_id : string)
| OpGetJobArtifacts (job_id : string) (regex_filter : option string)
| OpGetBuildData (pipeline_slug : string) (build_id : Z)
| OpGetArtifactContent (artifact_url : string)
| OpCreateBuild (pipeline_slug : string) (env : json)
| OpGetBuildUrlFromCommit (commit_sha : string)
| OpGetBuildUrlFromBranch (branch : string)
| OpGetUserBuilds (limit : Z) (show_finished : bool).

Inductive outcome : Type :=
| OutJson (j : json)
| OutJsons (l : list json)
| OutBytes (s : string)
| OutBuilds (l : list Build).

Definition fmap {A B} (f : A -> B) (m : M A) : M B :=
  a <- m ;; ret (f a).

Definition call (op : operation) : M outcome :=
  match op with
  | OpGetJobArtifactCount job_id => fmap OutJson (get_job_artifact_count job_id)
  | OpGetJobArtifacts job_id regex_filter =>
      fmap OutJsons (get_job_artifacts job_id regex_filter)
  | OpGetBuildData pipeline_slug build_id =>
      fmap OutJson (get_build_data pipeline_slug build_id)
  | OpGetArtifactContent artifact_url =>
      fmap OutBytes (get_artifact_content artifact_url)
  | OpCreateBuild pipeline_slug env => fmap OutJson (create_build pipeline_slug env)
  | OpGetBuildUrlFromCommit commit_sha =>
      fmap OutJson (get_build_url_from_commit commit_sha)
  | OpGetBuildUrlFromBranch branch =>
      fmap OutJson (get_build_url_from_branch branch)
  | OpGetUserBuilds limit show_finished =>
      fmap OutBuilds (get_user_builds limit show_finished)
  end.

(** Calls made one after the other on the same client; an exception of one
    call is caught by the caller, the next call still runs. *)
Fixpoint calls (ops : list operation) (w : World) : World :=
  match ops with
  | [] => w
  | op :: ops' => calls ops' (snd (call op w))
  end.

End Client.

(** ** Vocabulary of the properties *)

(** [len(build.jobs)] and the number of jobs in a finished state. *)
Definition total_jobs (b : Build) : Z := Z.of_nat (List.length (jobs b)).
Definition finished_jobs (b : Build) : Z :=
  Z.of_nat (List.length
    (filter (fun job => in_list (job_state job) JOB_FINISHED_STATES) (jobs b))).

(** The line of [display_build] around a given percentage text. *)
Definition layout (b : Build) (pct : string) : string :=
  ljust 50 (name (pipeline b)) ++ " " ++ ljust 10 (str_of_int (number b))
  ++ rjust 6 pct ++ "% finished    " ++ rstrip ("State: " ++ state b).

(** Rounding to the nearest integer with halves rounded up. *)
Definition round_half_up (a b : Z) : Z := (2 * a + b) / (2 * b).

Definition no_newline (s : string) : bool := negb (str_in newline s).

Definition ends_with_space (s : string) : bool :=
  match last_char s with
  | Some c => is_space c
  | None => false
  end.

(** Sample builds. *)
Definition sample_pipeline : Pipeline := mkPipeline "my-pipeline" "#fff" "my-pipeline".
Definition build_half : Build :=
  mkBuild 42 "fix" sample_pipeline "RUNNING"
    [mkJob "FINISHED" true; mkJob "RUNNING" false].
Definition build_eighth : Build :=
  mkBuild 42 "fix" sample_pipeline "RUNNING"
    (mkJob "FINISHED" true :: repeat (mkJob "RUNNING" false) 7).
Definition build_org_slug : Build :=
  mkBuild 42 "fix" (mkPipeline "my-pipeline" "#fff" "retool/my-pipeline") "RUNNING" [].
Definition build_two_lines : Build :=
  mkBuild 7 "fix" (mkPipeline (String "a" (String newline "b")) "" "p") "RUNNING"
    [mkJob "FINISHED" true].

(** The request [_graphql_post] sends. *)
Definition graphql_request (me : Buildkite) (query : string) (variables : json)
  : request :=
  mkRequest POST (graphql_base_url me) (headers me)
    (Some (JObj [("query", JStr query); ("variables", variables)])) None.

Definition count_request (me : Buildkite) (job_id : string) : request :=
  graphql_request me getJobArtifactCount_query (JObj [("job_id", JStr job_id)]).

Definition artifacts_request (me : Buildkite) (job_id : string) (count : json)
  : request :=
  graphql_request me getJobArtfacts_query
    (JObj [("job_id", JStr job_id); ("artifact_count", count)]).

Definition commit_request (me : Buildkite) (commit_sha : string) : request :=
  graphql_request me getBuildFromCommit_query
    (JObj [("commit_sha", JStr commit_sha)]).

Definition branch_request (me : Buildkite) (branch : string) : request :=
  graphql_request me getBuildFromBranch_query (JObj [("branch", JStr branch)]).

Definition user_builds_request (me : Buildkite) (limit : Z) (state_filter : list string)
  : request :=
  graphql_request me GetUserBuilds_query
    (JObj [("limit", JInt limit); ("state_filter", JList (map JStr state_filter))]).

(** What a query yields: the decoded body of a reply with a success status,
    an exception otherwise. *)
Definition decode (r : option response) : result json :=
  match r with
  | None => Raise TransportError
  | Some resp => _ <~ raise_for_status resp ;; response_json resp
  end.

Definition is_not_found {A} (r : result A) : bool :=
  match r with
  | Raise (BuildkiteNotFoundException _) => true
  | _ => false
  end.

(** [sub in s] *)
Fixpoint contains (sub s : string) : bool :=
  String.prefix sub s
  || match s with
     | EmptyString => false
     | String _ s' => contains sub s'
     end.

(** The contract of the commit and branch lookups, for the outcome [run] of
    the call, the outcome [rep] of its query, the key looked up and the
    message of the not-found error. *)
Definition lookup_spec (run rep : result json) (key msg : string) : Prop :=
  (forall e, rep = Raise e -> run = Raise e /\ is_not_found run = false)
  /\ (forall body edges,
         rep = Ok body ->
         getpath body ["data"; "pipeline"; "builds"; "edges"] = Ok (JList edges) ->
         (is_not_found run = true <-> edges = [])
         /\ (edges = [] ->
             run = Raise (BuildkiteNotFoundException msg)
             /\ contains key msg = true)
         /\ (forall first rest u,
                edges = first :: rest ->
                getpath first ["node"; "url"] = Ok u ->
                run = Ok u)).

(** A node is kept by a compiled pattern when its download URL is a string
    that the pattern matches somewhere. *)
Definition keeps (m : matcher) (node : json) : bool :=
  match getitem node "downloadURL" with
  | Ok (JStr u) => search m u
  | _ => false
  end.

Definition has_url (node : json) : Prop :=
  exists u, getitem node "downloadURL" = Ok (JStr u).

Definition node_of (edge node : json) : Prop := getitem edge "node" = Ok node.

(** Sample transports: a reply with status 200 and a JSON body; the [n]th
    body of a script goes to the [n]th request. *)
Definition ok_response (body : json) : response := mkResponse 200 (Some body) "".

Definition server_script (bodies : list json) : list request -> request -> option response :=
  fun hist _ => option_map ok_response (nth_error bodies (List.length hist)).

(** A sample pattern compiler: the pattern is taken literally. *)
Definition compile_literal (pattern : string) : result matcher :=
  Ok (if String.eqb pattern "" then empty_matcher else literal_matcher pattern).

(** A client as [Buildkite("retool", "s3cret")] builds it, before any request. *)
Definition world0 : World :=
  snd (__init__ "retool" "s3cret" (mkWorld Buildkite_class [])).

Definition obj1 (k : string) (v : json) : json := JObj [(k, v)].

Definition lookup_body (edges : list json) : json :=
  obj1 "data" (obj1 "pipeline" (obj1 "builds" (obj1 "edges" (JList edges)))).

Definition url_edge (u : string) : json := obj1 "node" (obj1 "url" (JStr u)).

Definition count_body (count : json) : json :=
  obj1 "data" (obj1 "job" (obj1 "artifacts" (obj1 "count" count))).

Definition artifacts_body (edges : list json) : json :=
  obj1 "data" (obj1 "job" (obj1 "artifacts" (obj1 "edges" (JList edges)))).

Definition artifact_node (u : string) : json := obj1 "downloadURL" (JStr u).
Definition artifact_edge (u : string) : json := obj1 "node" (artifact_node u).

Definition sample_urls : list string :=
  ["https://x/a.log"; "https://x/b.txt"; "https://x/a.log"].

Definition job_edge (st : string) (ps : bool) : json :=
  obj1 "node" (JObj [("state", JStr st); ("passed", JBool ps)]).

Definition build_edge (n : Z) (st : string) (job_edges : list json) : json :=
  obj1 "node"
    (JObj [("pipeline", JObj [("name", JStr "my-pipeline"); ("color", JStr "#fff");
                              ("slug", JStr "my-pipeline")]);
           ("message", JStr "fix"); ("number", JInt n); ("state", JStr st);
           ("jobs", obj1 "edges" (JList job_edges))]).

Definition user_builds_body (edges : list json) : json :=
  obj1 "data" (obj1 "viewer" (obj1 "user" (obj1 "builds" (obj1 "edges" (JList edges))))).

Definition sample_build_edges : list json :=
  [build_edge 42 "PASSED" [job_edge "FINISHED" true];
   build_edge 41 "RUNNING" [job_edge "RUNNING" false]].

(** [n] is the integer nearest to [x / y], the even one on a tie. *)
Definition rne_spec (x y n : Z) : Prop :=
  2 * Z.abs (x - n * y) < y \/ (2 * Z.abs (x - n * y) = y /\ Z.even n = true).

(** Comparison of [py_truediv] with the division of binary64 floats of the
    Standard Library. *)
Definition sf_of_Z (z : Z) : spec_float :=
  match z with
  | Zpos p => S754_finite false p 0
  | Zneg p => S754_finite true p 0
  | Z0 => S754_zero false
  end.

Definition sf_eqb (x y : spec_float) : bool :=
  match x, y with
  | S754_zero s, S754_zero s' => Bool.eqb s s'
  | S754_finite s m e, S754_finite s' m' e' =>
      Bool.eqb s s' && Pos.eqb m m' && Z.eqb e e'
  | _, _ => false
  end.

Definition agrees_with_SFdiv (a b : Z) : bool :=
  match py_truediv a b with
  | Ok x => sf_eqb x (SFdiv 53 1024 (sf_of_Z a) (sf_of_Z b))
  | Raise _ => false
  end.

Section ClientVocabulary.

Variable server : list request -> request -> option response.
Variable re_compile : string -> result matcher.

(** The outcome of the query that request [req] carries, sent in world [w]. *)
Definition reply (w : World) (req : request) : result json :=
  decode (server (sent w) req).

Definition after (w : World) (req : request) : World :=
  mkWorld (self w) (sent w ++ [req]).

(** The comprehension at the end of [get_job_artifacts]. *)
Definition select (regex_filter : option string) (edges : list json)
  : result (list json) :=
  rcomp (fun edge =>
           match regex_filter with
           | None => Ok true
           | Some pattern =>
               download_url <~ getpath edge ["node"; "downloadURL"] ;;
               re_search re_compile pattern download_url
           end)
        (fun edge => getitem edge "node")
        edges.

(** The two queries of [get_job_artifacts] succeed: the count is not zero
    and the second reply lists [edges]. *)
Definition lists_artifacts (w : World) (job_id : string) (edges : list json) : Prop :=
  exists body count body2,
    reply w (count_request (self w) job_id) = Ok body
    /\ getpath body ["data"; "job"; "artifacts"; "count"] = Ok count
    /\ eq_zero count = false
    /\ reply (after w (count_request (self w) job_id))
             (artifacts_request (self w) job_id count) = Ok body2
    /\ getpath body2 ["data"; "job"; "artifacts"; "edges"] = Ok (JList edges).

(** Running [m] in [w] leaves the client as it is and only adds requests
    that carry the client's headers. *)
Definition framed {A} (m : M A) (w : World) : Prop :=
  self (snd (m w)) = self w
  /\ exists new,
       sent (snd (m w)) = (sent w ++ new)%list
       /\ Forall (fun r => req_headers r = headers (self w)) new.

End ClientVocabulary.

(** ** kite.py *)

(** [str.lstrip()] and [str.strip()] *)
Fixpoint lstrip (s : string) : string :=
  match s with
  | EmptyString => EmptyString
  | String c s' => if is_space c then lstrip s' else s
  end.

Definition strip (s : string) : string := rstrip (lstrip s).

(** What a command can touch: the client and the requests sent, the lines
    printed, the URLs given to [webbrowser.open], the commands run through
    [subprocess.run] and the lists of choices handed to [gum_choose]. *)
Record Terminal : Type := mkTerminal {
  net : World;
  printed : list string;
  opened : list json;
  ran : list (list string);
  offered : list (list Build)
}.

Definition C (A : Type) : Type := Terminal -> result A * Terminal.

Definition cret {A} (a : A) : C A := fun t => (Ok a, t).
Definition cbind {A B} (m : C A) (k : A -> C B) : C B :=
  fun t =>
    match m t with
    | (Ok a, t') => k a t'
    | (Raise e, t') => (Raise e, t')
    end.

Notation "x <-- c ;; k" := (cbind c (fun x => k))
  (at level 61, c at next level, right associativity).

(** A method of the client, run from a command. *)
Definition client {A} (m : M A) : C A :=
  fun t =>
    let '(r, w) := m (net t) in
    (r, mkTerminal w (printed t) (opened t) (ran t) (offered t)).

(** [print(x)] *)
Definition print (line : string) : C unit :=
  fun t => (Ok tt, mkTerminal (net t) (printed t ++ [line]) (opened t) (ran t)
                     (offered t)).

(** [webbrowser.open(url)] *)
Definition webbrowser_open (u : json) : C unit :=
  fun t => (Ok tt, mkTerminal (net t) (printed t) (opened t ++ [u]) (ran t)
                     (offered t)).

Module Kite.

Section Commands.

Variable server : list request -> request -> option response.

(** [os.getenv(name)], [None] when the variable is not set. *)
Variable getenv : string -> option string.

(** The standard output of a command run by [subprocess.run]. *)
Variable stdout_of : list string -> string.

(** [gum_choose(choices, display_function).selection]: the picker of the
    [gum] module, handed the choices and the function that renders one. *)
Variable gum_choose : list Build -> (Build -> result string) -> result Build.

(** [subprocess.run(argv, stdout=subprocess.PIPE, text=True).stdout] *)
Definition subprocess_stdout (argv : list string) : C string :=
  fun t => (Ok (stdout_of argv),
            mkTerminal (net t) (printed t) (opened t) (ran t ++ [argv]) (offered t)).

Definition choose (choices : list Build) (display_function : Build -> result string)
  : C Build :=
  fun t => (gum_choose choices display_function,
            mkTerminal (net t) (printed t) (opened t) (ran t)
              (offered t ++ [choices])).

(** The group callback [kite]: a new client for the organisation [retool],
    with the token of the environment or the empty string. *)
Definition kite : C unit :=
  let buildkite_token :=
    match getenv "BUILDKITE_TOKEN" with
    | Some v => v
    | None => ""
    end in
  client (fun w => __init__ "retool" buildkite_token
                     (mkWorld Buildkite_class (sent w))).

(** The command [commit]; the argument is [None] when it is not given. *)
Definition commit (commit : option string) : C unit :=
  commit' <-- match commit with
              | Some (String c s) => cret (String c s)
              | _ =>
                  out <-- subprocess_stdout ["git"; "rev-parse"; "HEAD"] ;;
                  cret (strip out)
              end ;;
  fun t =>
    match client (get_build_url_from_commit server commit') t with
    | (Ok url, t') => webbrowser_open url t'
    | (Raise (BuildkiteNotFoundException e), t') => print e t'
    | (Raise e, t') => (Raise e, t')
    end.

(** The command [branch] *)
Definition branch (branch : option string) : C unit :=
  branch' <-- match branch with
              | Some (String c s) => cret (String c s)
              | _ =>
                  out <-- subprocess_stdout ["git"; "branch"; "--show-current"] ;;
                  cret (strip out)
              end ;;
  fun t =>
    match client (get_build_url_from_branch server branch') t with
    | (Ok url, t') => webbrowser_open url t'
    | (Raise (BuildkiteNotFoundException e), t') => print e t'
    | (Raise e, t') => (Raise e, t')
    end.

(** The command [build]; the argument arrives as the text typed. *)
Definition build (build_number : string) : C unit :=
  let url :=
    "https://buildkite.com/retool/retool-development-dot-tests/builds/"
    ++ build_number in
  webbrowser_open (JStr url).

(** The command [builds] *)
Definition builds (limit : Z) (show_finished : bool) : C unit :=
  builds <-- client (get_user_builds server limit show_finished) ;;
  _ <-- match builds with
        | [] => print "No builds found, use --show-finished to show previous builds"
        | _ => cret tt
        end ;;
  build_choice <-- choose builds display_build ;;
  webbrowser_open (JStr (url build_choice)).

(** The value a lookup command looks up: the argument when one is given
    and not empty, else the output of git without surrounding white space. *)
Definition key_of (arg : option string) (argv : list string) : string :=
  match arg with
  | Some (String c s) => String c s
  | _ => strip (stdout_of argv)
  end.

(** The git commands a lookup command runs. *)
Definition git_runs (arg : option string) (argv : list string) : list (list string) :=
  match arg with
  | Some (String c s) => []
  | _ => [argv]
  end.

(** A command line: the group callback, then the command. *)
Inductive command : Type :=
| CmdCommit (arg : option string)
| CmdBranch (arg : option string)
| CmdBuild (build_number : string)
| CmdBuilds (limit : Z) (show_finished : bool).

Definition run (cmd : command) : C unit :=
  _ <-- kite ;;
  match cmd with
  | CmdCommit arg => commit arg
  | CmdBranch arg => branch arg
  | CmdBuild build_number => build build_number
  | CmdBuilds limit show_finished => builds limit show_finished
  end.

(** The token the group callback gives the client. *)
Definition token : string :=
  match getenv "BUILDKITE_TOKEN" with
  | Some v => v
  | None => ""
  end.

End Commands.

(** What a lookup command does, for its outcome [out] from the terminal
    [t], the outcome [rep] of its query and the not-found message [msg]. *)
Definition lookup_command_spec (out : result unit * Terminal) (t : Terminal)
    (rep : result json) (msg : string) : Prop :=
  (forall e, rep = Raise e ->
     fst out = Raise e
     /\ printed (snd out) = printed t /\ opened (snd out) = opened t)
  /\ (forall body edges,
         rep = Ok body ->
         getpath body ["data"; "pipeline"; "builds"; "edges"] = Ok (JList edges) ->
         (edges = [] ->
          fst out = Ok tt
          /\ printed (snd out) = (printed t ++ [msg])%list
          /\ opened (snd out) = opened t)
         /\ (forall first rest u,
                edges = first :: rest ->
                getpath first ["node"; "url"] = Ok u ->
                fst out = Ok tt
                /\ printed (snd out) = printed t
                /\ opened (snd out) = (opened t ++ [u])%list)).

End Kite.

(** The terminal after a lookup command, given the outcome of the call. *)
Definition lookup_end (t : Terminal) (runs : list (list string))
    (r : result json * World) : result unit * Terminal :=
  match fst r with
  | Ok u =>
      (Ok tt, mkTerminal (snd r) (printed t) (opened t ++ [u]) (ran t ++ runs)
                (offered t))
  | Raise (BuildkiteNotFoundException msg) =>
      (Ok tt, mkTerminal (snd r) (printed t ++ [msg]) (opened t) (ran t ++ runs)
                (offered t))
  | Raise e =>
      (Raise e, mkTerminal (snd r) (printed t) (opened t) (ran t ++ runs)
                  (offered t))
  end.

(** A terminal before any command. *)
Definition terminal0 : Terminal := mkTerminal (mkWorld Buildkite_class []) [] [] [] [].

(** ** Further vocabulary *)

(** The first request of an operation. *)
Definition first_request (me : Buildkite) (op : operation) : request :=
  match op with
  | OpGetJobArtifactCount job_id => count_request me job_id
  | OpGetJobArtifacts job_id _ => count_request me job_id
  | OpGetBuildData pipeline_slug build_id =>
      mkRequest GET
        (rest_base_url me ++ "/organizations/" ++ org_name me ++ "/pipelines/"
         ++ pipeline_slug ++ "/builds/" ++ str_of_int build_id
         ++ "?include_retried_jobs=true")
        (headers me) None None
  | OpGetArtifactContent artifact_url =>
      mkRequest GET artifact_url (headers me) None (Some true)
  | OpCreateBuild pipeline_slug env =>
      mkRequest POST
        (rest_base_url me ++ "/organizations/" ++ org_name me ++ "/pipelines/"
         ++ pipeline_slug ++ "/builds")
        (headers me) (Some env) None
  | OpGetBuildUrlFromCommit commit_sha => commit_request me commit_sha
  | OpGetBuildUrlFromBranch branch => branch_request me branch
  | OpGetUserBuilds limit show_finished =>
      user_builds_request me limit
        (if show_finished then [] else BUILD_RUNNING_STATES)
  end.

(** The exception a reply stands for before its body is looked at. *)
Definition failure (r : option response) : option exn :=
  match r with
  | None => Some TransportError
  | Some resp =>
      if (400 <=? status_code resp) && (status_code resp <? 600)
      then Some (HTTPError (status_code resp)) else None
  end.

(** The edge of a [GetUserBuilds] reply that describes a build. *)
Definition json_of_job (j : Job) : json :=
  obj1 "node" (JObj [("state", JStr (job_state j)); ("passed", JBool (passed j))]).

Definition json_of_build (b : Build) : json :=
  obj1 "node"
    (JObj [("pipeline", JObj [("name", JStr (name (pipeline b)));
                              ("color", JStr (color (pipeline b)));
                              ("slug", JStr (slug (pipeline b)))]);
           ("message", JStr (commit_message b));
           ("number", JInt (number b));
           ("state", JStr (state b));
           ("jobs", obj1 "edges" (JList (map json_of_job (jobs b))))]).

Definition starts_with_space (s : string) : bool :=
  match s with
  | EmptyString => false
  | String c _ => is_space c
  end.

(** Further samples. *)

(** A transport that answers every request with the same reply. *)
Definition server_always (resp : response) : list request -> request -> option response :=
  fun _ _ => Some resp.

(** A pattern compiler that rejects the pattern ["("]. *)
Definition compile_checked (pattern : string) : result matcher :=
  if String.eqb pattern "(" then Raise ReError else compile_literal pattern.

Definition build_retitled : Build :=
  mkBuild 42 "another message" (mkPipeline "my-pipeline" "#000" "my-pipeline")
    "RUNNING" [mkJob "FINISHED" false; mkJob "RUNNING" true].

Definition build_dot_tests : Build :=
  mkBuild 1234 "fix" (mkPipeline "dot tests" "" "retool-development-dot-tests")
    "PASSED" [].


(** * Properties *)

(** ** Strings *)

Lemma append_nil_r (s : string) : s ++ "" = s.
Proof. induction s as [|c s IH]; simpl; [reflexivity | now rewrite IH]. Qed.

Lemma append_assoc (s t u : string) : (s ++ t) ++ u = s ++ (t ++ u).
Proof. induction s as [|c s IH]; simpl; [reflexivity | now rewrite IH]. Qed.

Lemma length_append (s t : string) :
  String.length (s ++ t) = (String.length s + String.length t)%nat.
Proof. induction s as [|c s IH]; simpl; [reflexivity | now rewrite IH]. Qed.

Lemma length_spaces (n : nat) : String.length (spaces n) = n.
Proof. induction n as [|n IH]; simpl; [reflexivity | now rewrite IH]. Qed.

Lemma length_ljust (w : nat) (s : string) :
  String.length (ljust w s) = Nat.max w (String.length s).
Proof. unfold ljust. rewrite length_append, length_spaces. lia. Qed.

Lemma length_rjust (w : nat) (s : string) :
  String.length (rjust w s) = Nat.max w (String.length s).
Proof. unfold rjust. rewrite length_append, length_spaces. lia. Qed.

Lemma rstrip_spaces_only (n : nat) : rstrip (spaces n) = "".
Proof. induction n as [|n IH]; simpl; [reflexivity | now rewrite IH]. Qed.

Lemma rstrip_app_spaces (s : string) (n : nat) :
  rstrip (s ++ spaces n) = rstrip s.
Proof.
  induction s as [|c s IH]; simpl.
  - apply rstrip_spaces_only.
  - now rewrite IH.
Qed.

Lemma rstrip_ljust (w : nat) (s : string) : rstrip (ljust w s) = rstrip s.
Proof. apply rstrip_app_spaces. Qed.

Lemma rstrip_app_keep (s t : string) :
  rstrip t <> "" -> rstrip (s ++ t) = s ++ rstrip t.
Proof.
  intros Ht. induction s as [|c s IH]; simpl; [reflexivity|].
  rewrite IH. destruct (s ++ rstrip t) eqn:E; [|reflexivity].
  destruct s; simpl in E; [contradiction | discriminate].
Qed.

Lemma rstrip_cons_keep (c : ascii) (s : string) :
  is_space c = false -> rstrip (String c s) <> "".
Proof.
  intros Hc. simpl. destruct (rstrip s); [rewrite Hc|]; discriminate.
Qed.

Lemma rstrip_not_ending_space (s : string) : ends_with_space (rstrip s) = false.
Proof.
  unfold ends_with_space.
  induction s as [|c s IH]; simpl; [reflexivity|].
  destruct (rstrip s) as [|d r] eqn:E.
  - destruct (is_space c) eqn:Hc; simpl; [reflexivity | exact Hc].
  - exact IH.
Qed.

Lemma last_char_app (s t : string) :
  t <> "" -> last_char (s ++ t) = last_char t.
Proof.
  intros Ht. induction s as [|c s IH]; simpl; [reflexivity|].
  rewrite IH. destruct (s ++ t) eqn:E; [|reflexivity].
  destruct s; simpl in E; [contradiction | discriminate].
Qed.

Lemma ends_with_space_app (s t : string) :
  t <> "" -> ends_with_space (s ++ t) = ends_with_space t.
Proof. intros Ht. unfold ends_with_space. now rewrite last_char_app. Qed.

Lemma str_in_app (c : ascii) (s t : string) :
  str_in c (s ++ t) = str_in c s || str_in c t.
Proof.
  induction s as [|a s IH]; simpl; [reflexivity|].
  now rewrite IH, orb_assoc.
Qed.

Lemma str_in_spaces (n : nat) : str_in newline (spaces n) = false.
Proof. induction n as [|n IH]; simpl; [reflexivity | exact IH]. Qed.

Lemma str_in_rstrip (c : ascii) (s : string) :
  str_in c s = false -> str_in c (rstrip s) = false.
Proof.
  induction s as [|a s IH]; simpl; [reflexivity|].
  intros H. apply orb_false_iff in H as [Ha Hs].
  destruct (rstrip s) as [|d r] eqn:E.
  - destruct (is_space a); simpl; [reflexivity | now rewrite Ha].
  - simpl. rewrite Ha. simpl. apply IH in Hs. exact Hs.
Qed.

Lemma no_newline_app (s t : string) :
  no_newline (s ++ t) = no_newline s && no_newline t.
Proof. unfold no_newline. now rewrite str_in_app, negb_orb. Qed.

Lemma no_newline_ljust (w : nat) (s : string) :
  no_newline (ljust w s) = no_newline s.
Proof.
  unfold ljust. rewrite no_newline_app. unfold no_newline at 2.
  rewrite str_in_spaces. apply andb_true_r.
Qed.

Lemma no_newline_rjust (w : nat) (s : string) :
  no_newline (rjust w s) = no_newline s.
Proof.
  unfold rjust. rewrite no_newline_app. unfold no_newline at 1.
  now rewrite str_in_spaces.
Qed.

Lemma no_newline_rstrip (s : string) :
  no_newline s = true -> no_newline (rstrip s) = true.
Proof.
  unfold no_newline. intros H. apply negb_true_iff in H.
  apply negb_true_iff. now apply str_in_rstrip.
Qed.

Lemma no_newline_uint (d : Decimal.uint) :
  no_newline (NilEmpty.string_of_uint d) = true.
Proof. induction d; simpl; auto. Qed.

Lemma no_newline_uint0 (d : Decimal.uint) :
  no_newline (NilZero.string_of_uint d) = true.
Proof.
  destruct d; [reflexivity | ..];
    match goal with
    | |- no_newline (NilZero.string_of_uint ?u) = true => exact (no_newline_uint u)
    end.
Qed.

Lemma no_newline_str_of_int (z : Z) : no_newline (str_of_int z) = true.
Proof.
  unfold str_of_int, NilZero.string_of_int.
  destruct (Z.to_int z) as [d|d].
  - apply no_newline_uint0.
  - change (String "-" (NilZero.string_of_uint d))
      with ("-" ++ NilZero.string_of_uint d).
    rewrite no_newline_app, no_newline_uint0. reflexivity.
Qed.

Lemma no_newline_fmt_f0 (x : spec_float) : no_newline (fmt_f0 x) = true.
Proof.
  destruct x as [s|s| |s m e]; simpl; try (destruct s; reflexivity); try reflexivity.
  rewrite no_newline_app, no_newline_str_of_int.
  destruct s; reflexivity.
Qed.

(** ** Rounding *)

Lemma rne_div_spec (x y : Z) : 0 < y -> rne_spec x y (rne_div x y).
Proof.
  intros Hy. unfold rne_spec, rne_div.
  pose proof (Z.div_mod x y ltac:(lia)) as Hdm.
  pose proof (Z.mod_pos_bound x y Hy) as Hr.
  destruct (Z.compare_spec (2 * (x mod y)) y) as [E|E|E].
  - destruct (Z.even (x / y)) eqn:Hev.
    + right. split; [|exact Hev].
      replace (x - x / y * y) with (x mod y) by lia. lia.
    + right. split.
      * replace (x - (x / y + 1) * y) with (x mod y - y) by lia. lia.
      * rewrite Z.even_add, Hev. reflexivity.
  - left. replace (x - x / y * y) with (x mod y) by lia. lia.
  - left. replace (x - (x / y + 1) * y) with (x mod y - y) by lia. lia.
Qed.

Lemma rne_spec_unique (x y n1 n2 : Z) :
  0 < y -> rne_spec x y n1 -> rne_spec x y n2 -> n1 = n2.
Proof.
  intros Hy H1 H2.
  assert (Hd : n1 = n2 \/ n1 = n2 + 1 \/ n2 = n1 + 1 \/ n1 + 2 <= n2 \/ n2 + 2 <= n1)
    by lia.
  unfold rne_spec in H1, H2.
  destruct Hd as [Hd|[Hd|[Hd|[Hd|Hd]]]]; [exact Hd | | | exfalso | exfalso].
  - subst n1. exfalso.
    replace (x - (n2 + 1) * y) with (x - n2 * y - y) in H1 by lia.
    destruct H1 as [H1|[H1 E1]], H2 as [H2|[H2 E2]]; try lia.
    rewrite Z.even_add, E2 in E1. discriminate.
  - subst n2. exfalso.
    replace (x - (n1 + 1) * y) with (x - n1 * y - y) in H2 by lia.
    destruct H1 as [H1|[H1 E1]], H2 as [H2|[H2 E2]]; try lia.
    rewrite Z.even_add, E1 in E2. discriminate.
  - assert (n2 * y >= n1 * y + 2 * y) by nia.
    destruct H1 as [H1|[H1 _]], H2 as [H2|[H2 _]]; lia.
  - assert (n1 * y >= n2 * y + 2 * y) by nia.
    destruct H1 as [H1|[H1 _]], H2 as [H2|[H2 _]]; lia.
Qed.

Lemma rne_div_unique (x y n : Z) : 0 < y -> rne_spec x y n -> rne_div x y = n.
Proof.
  intros Hy Hn. apply (rne_spec_unique x y); auto using rne_div_spec.
Qed.

Lemma rne_div_scale (c x y : Z) :
  0 < c -> 0 < y -> rne_div (c * x) (c * y) = rne_div x y.
Proof.
  intros Hc Hy. apply rne_div_unique; [nia|].
  destruct (rne_div_spec x y Hy) as [H|[H E]]; set (n := rne_div x y) in *.
  - left. replace (c * x - n * (c * y)) with (c * (x - n * y)) by ring.
    rewrite Z.abs_mul, (Z.abs_eq c) by lia. nia.
  - right. split; [|exact E].
    replace (c * x - n * (c * y)) with (c * (x - n * y)) by ring.
    rewrite Z.abs_mul, (Z.abs_eq c) by lia. nia.
Qed.

(** Rounding [a / b] to a multiple of [1 / P] first does not change the
    nearest integer, as long as [b < P]. *)
Lemma rne_div_twice (a b h : Z) :
  0 < b -> b < 2 * h ->
  rne_div (rne_div (a * (2 * h)) b) (2 * h) = rne_div a b.
Proof.
  intros Hb HP.
  set (P := 2 * h) in *.
  apply rne_div_unique; [lia|].
  destruct (rne_div_spec a b Hb) as [H0|[H0 E0]]; set (n0 := rne_div a b) in *.
  - pose proof (rne_div_spec (a * P) b Hb) as Hm.
    set (m := rne_div (a * P) b) in *.
    assert (Hu : 2 * Z.abs (a * P - m * b) <= b)
      by (destruct Hm as [Hm|[Hm _]]; lia).
    left.
    assert (Hz : (m - n0 * P) * b = (a - n0 * b) * P - (a * P - m * b)) by ring.
    set (z := m - n0 * P) in *. set (t := a - n0 * b) in *.
    set (u := a * P - m * b) in *.
    assert (Ht : 2 * Z.abs t <= b - 1) by lia.
    assert (HtP : 2 * Z.abs (t * P) <= (b - 1) * P).
    { rewrite Z.abs_mul, (Z.abs_eq P) by lia. nia. }
    assert (Hzb : 2 * Z.abs (z * b) < b * P).
    { rewrite Hz. nia. }
    rewrite Z.abs_mul, (Z.abs_eq b) in Hzb by lia. nia.
  - (* a tie: [a * P] is a multiple of [b] *)
    set (t := a - n0 * b) in *.
    assert (Hm : rne_div (a * P) b = n0 * P + Z.sgn t * h).
    { apply rne_div_unique; [exact Hb|]. left.
      replace (a * P - (n0 * P + Z.sgn t * h) * b)
        with (h * (2 * t - Z.sgn t * b)) by (unfold t, P; ring).
      assert (Hzero : 2 * t - Z.sgn t * b = 0).
      { rewrite <- H0. pose proof (Z.abs_sgn t) as Hs. nia. }
      rewrite Hzero, Z.mul_0_r. simpl. lia. }
    rewrite Hm. right. split; [|exact E0].
    replace (n0 * P + Z.sgn t * h - n0 * P) with (Z.sgn t * h) by ring.
    rewrite Z.abs_mul.
    assert (Z.abs (Z.sgn t) = 1).
    { destruct (Z.sgn_spec t) as [[? ->]|[[? ->]|[? ->]]]; lia. }
    rewrite H. assert (0 < h) by lia. rewrite (Z.abs_eq h) by lia. unfold P. lia.
Qed.

Lemma rne_div_percent_bounds (f n : Z) :
  0 <= f <= n -> 0 < n -> 0 <= rne_div (100 * f) n <= 100.
Proof.
  intros Hf Hn. pose proof (rne_div_spec (100 * f) n Hn) as H.
  set (p := rne_div (100 * f) n) in *. unfold rne_spec in H.
  assert (Hp : p < 0 \/ 100 < p \/ 0 <= p <= 100) by lia.
  destruct Hp as [Hp|[Hp|Hp]]; [exfalso | exfalso | exact Hp].
  - assert (p * n <= - n) by nia. destruct H as [H|[H _]]; lia.
  - assert (p * n >= 101 * n) by nia. destruct H as [H|[H _]]; lia.
Qed.

(** ** True division of a count by a total *)

(** The exponent chosen by [round_quot] for a quotient of at most 100. *)
Lemma quot_exponent_le (a b : Z) :
  0 < a -> 0 < b -> a <= 100 * b ->
  let d := Z.log2 a - Z.log2 b in
  (if b * 2 ^ Z.max 0 d <=? a * 2 ^ Z.max 0 (- d) then d else d - 1) <= 6.
Proof.
  intros Ha Hb Hab d.
  assert (Hd : d <= 7).
  { assert (Z.log2 a <= Z.log2 (2 ^ 7 * b)) 
      by (apply Z.log2_le_mono; change (2 ^ 7) with 128; lia).
    rewrite Z.mul_comm, Z.log2_mul_pow2 in H by lia. lia. }
  destruct (Z.leb_spec (b * 2 ^ Z.max 0 d) (a * 2 ^ Z.max 0 (- d))) as [H|H]; [|lia].
  assert (d = 7 \/ d <= 6) as [E|E] by lia; [|exact E].
  rewrite E in H.
  replace (Z.max 0 7) with 7 in H by reflexivity.
  replace (Z.max 0 (- (7))) with 0 in H by reflexivity.
  change (2 ^ 7) with 128 in H. change (2 ^ 0) with 1 in H. lia.
Qed.

Lemma quot_exponent_ge (a b : Z) :
  0 < a -> 0 < b -> b < 2 ^ 46 ->
  let d := Z.log2 a - Z.log2 b in
  - 47 <= (if b * 2 ^ Z.max 0 d <=? a * 2 ^ Z.max 0 (- d) then d else d - 1).
Proof.
  intros Ha Hb Hb46 d.
  assert (0 <= Z.log2 a) by apply Z.log2_nonneg.
  assert (Z.log2 b < 46) by (apply Z.log2_lt_pow2; lia).
  destruct (_ <=? _); lia.
Qed.

(** Dividing at most 100 times the divisor never overflows. *)
Lemma round_quot_returns (a b : Z) :
  0 < a -> 0 < b -> a <= 100 * b ->
  exists x, round_quot false a b = Ok x.
Proof.
  intros Ha Hb Hab. unfold round_quot.
  pose proof (quot_exponent_le a b Ha Hb Hab) as Hex. cbv zeta in Hex.
  set (ex := if _ <=? _ then _ else _) in *.
  set (e := Z.max (ex - 52) (-1074)).
  assert (He : e <= -46) by lia.
  set (m := rne_div _ _).
  destruct (m =? 2 ^ 53).
  - change (2 ^ 52) with (Zpos (2 ^ 52)).
    destruct (Z.ltb_spec 971 (e + 1)); [lia | eauto].
  - destruct m; eauto.
    destruct (Z.ltb_spec 971 e); [lia | eauto].
Qed.

(** Below [2 ^ 46] jobs, formatting the float quotient gives the exact
    quotient rounded to the nearest integer, ties to even. *)
Lemma round_quot_fmt (a b : Z) :
  0 < a -> 0 < b -> a <= 100 * b -> b < 2 ^ 46 ->
  exists x, round_quot false a b = Ok x /\
            fmt_f0 x = str_of_int (rne_div a b).
Proof.
  intros Ha Hb Hab Hb46. unfold round_quot.
  pose proof (quot_exponent_le a b Ha Hb Hab) as Hex. cbv zeta in Hex.
  pose proof (quot_exponent_ge a b Ha Hb Hb46) as Hex'. cbv zeta in Hex'.
  set (ex := if _ <=? _ then _ else _) in *.
  replace (Z.max (ex - 52) (-1074)) with (ex - 52) by lia.
  set (e := ex - 52).
  replace (Z.max 0 (- e)) with (- e) by lia.
  replace (Z.max 0 e) with 0 by lia.
  rewrite Z.pow_0_r, Z.mul_1_r.
  set (k := - e). assert (Hk : 46 <= k) by lia.
  assert (HP : 2 ^ k = 2 * 2 ^ (k - 1)).
  { rewrite <- Z.pow_succ_r by lia. f_equal. lia. }
  assert (Hh : 2 ^ 45 <= 2 ^ (k - 1)) by (apply Z.pow_le_mono_r; lia).
  assert (Htw : rne_div (rne_div (a * 2 ^ k) b) (2 ^ k) = rne_div a b).
  { rewrite HP. apply rne_div_twice; lia. }
  set (m := rne_div (a * 2 ^ k) b) in *.
  assert (Hm : 0 < m).
  { pose proof (rne_div_spec (a * 2 ^ k) b Hb) as Hs. fold m in Hs.
    unfold rne_spec in Hs.
    assert (m <= 0 \/ 0 < m) as [Hneg|Hpos] by lia; [exfalso | exact Hpos].
    assert (m * b <= 0) by nia.
    assert (a * 2 ^ k >= 2 ^ k) by nia.
    destruct Hs as [Hs|[Hs _]]; lia. }
  destruct (Z.eqb_spec m (2 ^ 53)) as [E|E].
  - change (2 ^ 52) with (Zpos (2 ^ 52)).
    destruct (Z.ltb_spec 971 (e + 1)); [lia|].
    eexists; split; [reflexivity|].
    unfold fmt_f0. destruct (Z.leb_spec 0 (e + 1)); [lia|].
    simpl append.
    f_equal. rewrite <- Htw, E, HP.
    replace (- (e + 1)) with (k - 1) by lia.
    change (2 ^ 53) with (2 * Zpos (2 ^ 52)).
    symmetry. apply rne_div_scale; lia.
  - destruct m as [|p|p]; try lia.
    destruct (Z.ltb_spec 971 e); [lia|].
    eexists; split; [reflexivity|].
    unfold fmt_f0. destruct (Z.leb_spec 0 e); [lia|].
    simpl append.
    f_equal. fold k. exact Htw.
Qed.

Lemma finished_le_total (b : Build) : 0 <= finished_jobs b <= total_jobs b.
Proof.
  unfold finished_jobs, total_jobs.
  pose proof (filter_length_le
                (fun job => in_list (job_state job) JOB_FINISHED_STATES) (jobs b)).
  lia.
Qed.

Lemma total_jobs_pos (b : Build) : jobs b <> [] -> 0 < total_jobs b.
Proof.
  unfold total_jobs. destruct (jobs b); [contradiction | simpl; lia].
Qed.

Lemma py_truediv_percent_returns (f n : Z) :
  0 <= f <= n -> 0 < n -> exists x, py_truediv (f * 100) n = Ok x.
Proof.
  intros Hf Hn. unfold py_truediv.
  destruct (Z.eqb_spec n 0); [lia|].
  destruct (Z.eqb_spec (f * 100) 0); [eauto|].
  destruct (Z.ltb_spec (f * 100) 0); [lia|].
  destruct (Z.ltb_spec n 0); [lia|].
  rewrite !Z.abs_eq by lia. apply round_quot_returns; lia.
Qed.

Lemma py_truediv_percent_fmt (f n : Z) :
  0 <= f <= n -> 0 < n -> n < 2 ^ 46 ->
  exists x, py_truediv (f * 100) n = Ok x /\
            fmt_f0 x = str_of_int (rne_div (100 * f) n).
Proof.
  intros Hf Hn Hn46. unfold py_truediv.
  destruct (Z.eqb_spec n 0); [lia|].
  destruct (Z.eqb_spec (f * 100) 0) as [E|E].
  - destruct (Z.ltb_spec n 0); [lia|].
    eexists; split; [reflexivity|].
    replace f with 0 by lia. simpl Z.mul.
    unfold rne_div. rewrite Z.div_0_l, Z.mod_0_l by lia.
    simpl Z.mul. destruct (Z.compare_spec 0 n); try lia. reflexivity.
  - destruct (Z.ltb_spec (f * 100) 0); [lia|].
    destruct (Z.ltb_spec n 0); [lia|].
    rewrite !Z.abs_eq by lia. rewrite (Z.mul_comm 100 f).
    apply round_quot_fmt; lia.
Qed.

(** ** The formatter *)

Lemma rstrip_status (pct st : string) :
  rstrip (rjust 6 pct ++ "% finished    " ++ ljust 20 ("State: " ++ st))
  = rjust 6 pct ++ "% finished    " ++ rstrip ("State: " ++ st).
Proof.
  assert (Hne : rstrip ("State: " ++ st) <> "")
    by (apply rstrip_cons_keep; reflexivity).
  rewrite rstrip_app_keep.
  - f_equal. rewrite rstrip_app_keep; rewrite rstrip_ljust; [reflexivity | exact Hne].
  - rewrite rstrip_app_keep; rewrite rstrip_ljust; [|exact Hne].
    discriminate.
Qed.

Lemma display_build_layout (b : Build) (x : spec_float) :
  py_truediv (finished_jobs b * 100) (total_jobs b) = Ok x ->
  display_build b = Ok (layout b (fmt_f0 x)).
Proof.
  intros Hx. unfold display_build. fold (total_jobs b). fold (finished_jobs b).
  rewrite Hx. unfold rbind. rewrite rstrip_status. unfold layout.
  now rewrite !append_assoc.
Qed.

Lemma layout_not_ending_space (b : Build) (pct : string) :
  ends_with_space (layout b pct) = false.
Proof.
  unfold layout.
  assert (Hne : rstrip ("State: " ++ state b) <> "")
    by (apply rstrip_cons_keep; reflexivity).
  rewrite <- !append_assoc. rewrite ends_with_space_app by exact Hne.
  apply rstrip_not_ending_space.
Qed.

Lemma layout_no_newline (b : Build) (pct : string) :
  no_newline (name (pipeline b)) = true ->
  no_newline (state b) = true ->
  no_newline pct = true ->
  no_newline (layout b pct) = true.
Proof.
  intros Hn Hs Hp. unfold layout.
  rewrite !no_newline_app, no_newline_ljust, no_newline_ljust, no_newline_rjust.
  rewrite Hn, Hp, no_newline_str_of_int.
  rewrite no_newline_rstrip; [reflexivity|].
  rewrite no_newline_app, Hs. reflexivity.
Qed.

(** [py_truediv] agrees with the division of binary64 floats of the
    Standard Library on every count out of at most 100 jobs. *)
Lemma py_truediv_agrees_SFdiv :
  forallb (fun n => forallb (fun f => agrees_with_SFdiv (Z.of_nat f * 100) (Z.of_nat n))
                      (seq 0 (S n)))
          (seq 1 100) = true.
Proof. vm_compute. reflexivity. Qed.

(** C1. A build without jobs: [display_build] divides by [total_jobs = 0]
    and raises [ZeroDivisionError]; no line is produced. *)
Theorem display_build_no_jobs (n : Z) (msg : string) (p : Pipeline) (st : string) :
  display_build (mkBuild n msg p st []) = Raise ZeroDivisionError.
Proof. reflexivity. Qed.

(** C2, the example of the claim: with the slug ["retool/my-pipeline"] the
    organisation appears twice in the URL. *)
Lemma url_org_slug_counterexample :
  url build_org_slug <> "https://buildkite.com/retool/my-pipeline/builds/42".
Proof. vm_compute. discriminate. Qed.

(** C2, amended. The URL of a build is [BASE_URL], the pipeline slug and the
    build number, joined as [{BASE_URL}/{slug}/builds/{number}], whatever the
    other fields are; [BASE_URL] ends in the organisation [retool], so slug
    ["my-pipeline"] and number 42 give
    [https://buildkite.com/retool/my-pipeline/builds/42]. *)
Theorem url_format :
  (forall n msg p st js,
      url (mkBuild n msg p st js)
      = "https://buildkite.com/retool/" ++ slug p ++ "/builds/" ++ str_of_int n)
  /\ url build_half = "https://buildkite.com/retool/my-pipeline/builds/42"
  /\ url build_org_slug
     = "https://buildkite.com/retool/retool/my-pipeline/builds/42".
Proof.
  split; [intros n msg p st js; reflexivity | split; reflexivity].
Qed.

(** C5, the counterexample: one finished job out of eight is 12.5 percent;
    the line shows 12, rounding halves up gives 13. *)
Lemma display_build_half_up_counterexample :
  display_build build_eighth = Ok (layout build_eighth "12")
  /\ str_of_int (round_half_up (100 * finished_jobs build_eighth)
                               (total_jobs build_eighth)) = "13"
  /\ display_build build_eighth
     <> Ok (layout build_eighth
              (str_of_int (round_half_up (100 * finished_jobs build_eighth)
                                         (total_jobs build_eighth)))).
Proof. vm_compute. repeat split; try reflexivity. discriminate. Qed.

(** The example of the claim: one finished job out of two shows 50. *)
Example display_build_half :
  display_build build_half
  = Ok "my-pipeline                                        42            50% finished    State: RUNNING".
Proof. vm_compute. reflexivity. Qed.

(** C5, amended. For a build with [N] jobs, [0 < N < 2 ^ 46], of which [F]
    are in a finished state, the percentage shown is [100 * F / N] rounded to
    the nearest integer, a half going to the even neighbour, and it lies
    between 0 and 100. *)
Theorem display_build_percentage (b : Build) :
  jobs b <> [] -> total_jobs b < 2 ^ 46 ->
  let p := rne_div (100 * finished_jobs b) (total_jobs b) in
  display_build b = Ok (layout b (str_of_int p)) /\ 0 <= p <= 100.
Proof.
  intros Hj H46 p.
  pose proof (finished_le_total b) as Hf.
  pose proof (total_jobs_pos b Hj) as Hn.
  split; [|apply rne_div_percent_bounds; assumption].
  destruct (py_truediv_percent_fmt _ _ Hf Hn H46) as [x [Hx Hfmt]].
  rewrite (display_build_layout b x Hx), Hfmt. reflexivity.
Qed.

Lemma display_build_percentage_witness :
  display_build build_half = Ok (layout build_half (str_of_int 50))
  /\ 0 <= 50 <= 100.
Proof.
  apply (display_build_percentage build_half); [discriminate | reflexivity].
Defined.

(** The bound on the number of jobs cannot be dropped: just above [2 ^ 46]
    jobs there are counts whose exact percentage lies above 64.5 and whose
    float quotient is 64.5, which the format rounds to 64. *)
Example percentage_bound_needed :
  let n := 2 ^ 46 + 167 in
  let f := 45387839994701 in
  0 <= f <= n
  /\ (exists x, py_truediv (f * 100) n = Ok x /\ fmt_f0 x = "64")
  /\ rne_div (100 * f) n = 65.
Proof.
  cbv zeta. split; [lia|]. split; [|vm_compute; reflexivity].
  eexists. split; vm_compute; reflexivity.
Qed.

(** C8, the counterexample: a pipeline name with a line break gives a line
    with a line break. *)
Lemma display_build_newline_counterexample :
  exists out, display_build build_two_lines = Ok out /\ no_newline out = false.
Proof. eexists. split; [vm_compute; reflexivity | reflexivity]. Qed.

(** C8, amended. For a build with at least one job the line is: the pipeline
    name left-aligned in 50 columns, a space, the build number left-aligned
    in 10 columns, the percentage (the float quotient formatted without
    decimals) right-aligned in 6 columns, ["% finished"] and four spaces,
    then ["State: "] and the state with trailing white space removed. The
    line does not end in white space, and it has no line break when neither
    the pipeline name nor the state has one. *)
Theorem display_build_line (b : Build) :
  jobs b <> [] ->
  exists x out,
    py_truediv (finished_jobs b * 100) (total_jobs b) = Ok x
    /\ display_build b = Ok out
    /\ out = ljust 50 (name (pipeline b)) ++ " "
             ++ ljust 10 (str_of_int (number b))
             ++ rjust 6 (fmt_f0 x) ++ "% finished    "
             ++ rstrip ("State: " ++ state b)
    /\ ends_with_space out = false
    /\ (no_newline (name (pipeline b)) = true -> no_newline (state b) = true ->
        no_newline out = true).
Proof.
  intros Hj.
  destruct (py_truediv_percent_returns _ _ (finished_le_total b) (total_jobs_pos b Hj))
    as [x Hx].
  exists x, (layout b (fmt_f0 x)). repeat split.
  - exact Hx.
  - now apply display_build_layout.
  - apply layout_not_ending_space.
  - intros Hn Hs. apply layout_no_newline; auto using no_newline_fmt_f0.
Qed.

Lemma display_build_line_witness :
  exists x out,
    py_truediv (finished_jobs build_half * 100) (total_jobs build_half) = Ok x
    /\ display_build build_half = Ok out
    /\ out = ljust 50 (name (pipeline build_half)) ++ " "
             ++ ljust 10 (str_of_int (number build_half))
             ++ rjust 6 (fmt_f0 x) ++ "% finished    "
             ++ rstrip ("State: " ++ state build_half)
    /\ ends_with_space out = false
    /\ (no_newline (name (pipeline build_half)) = true ->
        no_newline (state build_half) = true ->
        no_newline out = true).
Proof. apply (display_build_line build_half). discriminate. Defined.

(** ** The client *)

Lemma prefix_refl (s : string) : String.prefix s s = true.
Proof.
  induction s as [|c s IH]; simpl; [reflexivity|].
  destruct (ascii_dec c c); [exact IH | contradiction].
Qed.

Lemma contains_app_r (p k : string) : contains k (p ++ k) = true.
Proof.
  induction p as [|c p IH].
  - change ("" ++ k) with k. destruct k as [|c k]; [reflexivity|].
    cbn [contains]. now rewrite prefix_refl.
  - change (String c p ++ k) with (String c (p ++ k)).
    cbn [contains]. rewrite IH. apply orb_true_r.
Qed.

Lemma decode_not_found (r : option response) : is_not_found (decode r) = false.
Proof.
  destruct r as [resp|]; simpl; [|reflexivity].
  unfold raise_for_status, response_json.
  destruct (_ && _); simpl; [reflexivity|].
  destruct (resp_json resp); reflexivity.
Qed.

Lemma rbind_not_found {A B} (r : result A) (k : A -> result B) :
  is_not_found r = false -> (forall a, is_not_found (k a) = false) ->
  is_not_found (rbind r k) = false.
Proof. destruct r; simpl; auto. Qed.

Lemma getitem_not_found (x : json) (key : string) :
  is_not_found (getitem x key) = false.
Proof.
  destruct x; simpl; try reflexivity. destruct (assoc key kv); reflexivity.
Qed.

Lemma getpath_not_found (keys : list string) (x : json) :
  is_not_found (getpath x keys) = false.
Proof.
  revert x. induction keys as [|k keys IH]; intros x; simpl; [reflexivity|].
  apply rbind_not_found; auto using getitem_not_found.
Qed.

Lemma getitem0_not_found (x : json) : is_not_found (getitem0 x) = false.
Proof.
  destruct x as [| | | |s|l|kv]; simpl; try reflexivity.
  - destruct s; reflexivity.
  - destruct l; reflexivity.
Qed.

Section ClientProperties.

Variable server : list request -> request -> option response.
Variable re_compile : string -> result matcher.

Lemma graphql_post_run (query : string) (variables : json) (w : World) :
  _graphql_post server query variables w
  = (reply server w (graphql_request (self w) query variables),
     after w (graphql_request (self w) query variables)).
Proof.
  unfold _graphql_post, reply, after, decode, bind, get_self, send, lift.
  fold (graphql_request (self w) query variables).
  destruct (server (sent w) _) as [resp|]; [|reflexivity].
  simpl. destruct (raise_for_status resp); reflexivity.
Qed.

Ltac query_failed He :=
  rewrite He; simpl; split; [reflexivity|];
  unfold reply in He |- *;
  match type of He with
  | decode ?r = _ =>
      let Hnf := fresh "Hnf" in
      pose proof (decode_not_found r) as Hnf; rewrite He in Hnf; exact Hnf
  end.

Ltac query_replied Hrep Hedges :=
  let Hfull := fresh "Hfull" in
  let Hdata := fresh "Hdata" in
  let data := fresh "data" in
  rewrite Hrep; pose proof Hedges as Hfull;
  unfold lift; cbn [getpath] in Hedges;
  match type of Hedges with
  | context [getitem ?body "data"] =>
      destruct (getitem body "data") as [data|] eqn:Hdata; [|discriminate Hedges]
  end;
  cbn [rbind] in Hedges |- *;
  match type of Hedges with
  | _ = Ok (JList ?edges) =>
      change (getpath data ["pipeline"; "builds"; "edges"] = Ok (JList edges))
        in Hedges
  end;
  rewrite Hedges, Hfull; cbn [rbind truthy fst].

Ltac lookup_cases :=
  split;
  [ let e := fresh "e" in let He := fresh "He" in
    intros e He; query_failed He
  | let body := fresh "body" in let edges := fresh "edges" in
    let Hrep := fresh "Hrep" in let Hedges := fresh "Hedges" in
    intros body edges Hrep Hedges; query_replied Hrep Hedges;
    destruct edges as [|? ?]; cbn [negb throw fst getitem0 rbind];
    [ split; [split; reflexivity|]; split;
      [ intros _; split; [reflexivity | apply contains_app_r]
      | let Habs := fresh "Habs" in intros ? ? ? Habs; discriminate Habs ]
    | split; [|split];
      [ let H := fresh "H" in
        split; [|discriminate]; intros H;
        rewrite getpath_not_found in H; discriminate H
      | discriminate
      | let Heq := fresh "Heq" in let Hu := fresh "Hu" in
        intros ? ? ? Heq Hu; injection Heq as <- <-; exact Hu ] ] ].

Lemma commit_lookup_run (commit_sha : string) (w : World) :
  lookup_spec (fst (get_build_url_from_commit server commit_sha w))
              (reply server w (commit_request (self w) commit_sha))
              commit_sha ("No build found for commit " ++ commit_sha).
Proof.
  unfold get_build_url_from_commit, bind. rewrite graphql_post_run.
  fold (commit_request (self w) commit_sha).
  lookup_cases.
Qed.

Lemma branch_lookup_run (branch : string) (w : World) :
  lookup_spec (fst (get_build_url_from_branch server branch w))
              (reply server w (branch_request (self w) branch))
              branch ("No build found for branch " ++ branch).
Proof.
  unfold get_build_url_from_branch, bind. rewrite graphql_post_run.
  fold (branch_request (self w) branch).
  lookup_cases.
Qed.


Lemma get_job_artifact_count_run (job_id : string) (w : World) :
  get_job_artifact_count server job_id w
  = (body <~ reply server w (count_request (self w) job_id) ;;
     getpath body ["data"; "job"; "artifacts"; "count"],
     after w (count_request (self w) job_id)).
Proof.
  unfold get_job_artifact_count, bind. rewrite graphql_post_run.
  fold (count_request (self w) job_id).
  destruct (reply server w _); reflexivity.
Qed.

Lemma get_job_artifacts_run (job_id : string) (regex_filter : option string)
    (w : World) (body : json) (count : json) :
  reply server w (count_request (self w) job_id) = Ok body ->
  getpath body ["data"; "job"; "artifacts"; "count"] = Ok count ->
  get_job_artifacts server re_compile job_id regex_filter w
  = if eq_zero count then (Ok [], after w (count_request (self w) job_id))
    else
      let w1 := after w (count_request (self w) job_id) in
      (body2 <~ reply server w1 (artifacts_request (self w) job_id count) ;;
       items <~ getpath body2 ["data"; "job"; "artifacts"; "edges"] ;;
       edges <~ py_iter items ;;
       select re_compile regex_filter edges,
       after w1 (artifacts_request (self w) job_id count)).
Proof.
  intros Hrep Hcount.
  unfold get_job_artifacts, bind. rewrite get_job_artifact_count_run, Hrep.
  cbn [rbind]. rewrite Hcount.
  destruct (eq_zero count); [reflexivity|].
  rewrite graphql_post_run. cbn [self after].
  fold (artifacts_request (self w) job_id count).
  cbv zeta.
  destruct (reply server _ (artifacts_request (self w) job_id count)) as [body2|e];
    [|reflexivity].
  unfold lift. cbn [rbind].
  destruct (getpath body2 _) as [items|e]; [|reflexivity].
  cbn [rbind]. destruct (py_iter items) as [edges|e]; reflexivity.
Qed.

Lemma select_cons (regex_filter : option string) (edge : json) (edges : list json) :
  select re_compile regex_filter (edge :: edges)
  = keep <~ match regex_filter with
            | None => Ok true
            | Some pattern =>
                download_url <~ getpath edge ["node"; "downloadURL"] ;;
                re_search re_compile pattern download_url
            end ;;
    if keep
    then node <~ getitem edge "node" ;;
         rest <~ select re_compile regex_filter edges ;; Ok (node :: rest)
    else select re_compile regex_filter edges.
Proof. reflexivity. Qed.

Lemma select_all (edges nodes : list json) :
  Forall2 node_of edges nodes -> select re_compile None edges = Ok nodes.
Proof.
  induction 1 as [|edge node edges nodes Hn _ IH]; [reflexivity|].
  rewrite select_cons. cbn [rbind]. rewrite Hn, IH. reflexivity.
Qed.

Lemma select_matching (pattern : string) (m : matcher) (edges nodes : list json) :
  re_compile pattern = Ok m ->
  Forall2 node_of edges nodes -> Forall has_url nodes ->
  select re_compile (Some pattern) edges = Ok (filter (keeps m) nodes).
Proof.
  intros Hm H.
  induction H as [|edge node edges nodes Hn _ IH]; intros Hu; [reflexivity|].
  inversion Hu as [|? ? [u Hurl] Hu']; subst.
  rewrite select_cons. cbn [getpath filter]. unfold node_of in Hn.
  rewrite Hn. cbn [rbind]. rewrite Hurl. cbn [rbind].
  unfold re_search. rewrite Hm. cbn [rbind].
  unfold keeps at 1. rewrite Hurl, (IH Hu').
  destruct (search m u); reflexivity.
Qed.

Lemma in_spans (n i j : nat) : In (i, j) (spans n) <-> (i <= j <= n)%nat.
Proof.
  unfold spans. rewrite in_flat_map. split.
  - intros [i' [Hi Hj]]. apply in_seq in Hi. apply in_map_iff in Hj.
    destruct Hj as [j' [E Hj]]. injection E as -> ->. apply in_seq in Hj. lia.
  - intros H. exists i. split; [apply in_seq; lia|].
    apply in_map_iff. exists j. split; [reflexivity | apply in_seq; lia].
Qed.

(** [search]: the pattern matches a slice somewhere in the text. *)
Lemma search_spec (m : matcher) (text : string) :
  search m text = true
  <-> exists i j, (i <= j <= String.length text)%nat /\ m text i j = true.
Proof.
  unfold search. rewrite existsb_exists. split.
  - intros [[i j] [Hin Hm]]. apply in_spans in Hin. exists i, j. auto.
  - intros [i [j [Hij Hm]]]. exists (i, j). split; [now apply in_spans | exact Hm].
Qed.

Lemma search_empty (text : string) : search empty_matcher text = true.
Proof.
  apply search_spec. exists 0%nat, 0%nat. split; [lia | reflexivity].
Qed.

Lemma filter_keeps_empty (nodes : list json) :
  Forall has_url nodes -> filter (keeps empty_matcher) nodes = nodes.
Proof.
  induction 1 as [|node nodes [u Hu] _ IH]; [reflexivity|].
  cbn [filter]. unfold keeps at 1. rewrite Hu, search_empty, IH. reflexivity.
Qed.

Lemma get_job_artifacts_select (w : World) (job_id : string)
    (regex_filter : option string) (edges : list json) :
  lists_artifacts server w job_id edges ->
  fst (get_job_artifacts server re_compile job_id regex_filter w)
  = select re_compile regex_filter edges.
Proof.
  intros [body [count [body2 [H1 [H2 [H3 [H4 H5]]]]]]].
  rewrite (get_job_artifacts_run job_id regex_filter w body count H1 H2), H3.
  cbv zeta. cbn [fst]. rewrite H4. cbn [rbind]. rewrite H5. reflexivity.
Qed.

(** C4. Each lookup raises the not-found error, with the looked-up value in
    its message, exactly when its query succeeds with an empty edge list; a
    failed query raises the error of the query; with at least one edge the
    call returns the URL of the first edge, whatever follows it. *)
Theorem build_url_lookup (w : World) (key : string) :
  lookup_spec (fst (get_build_url_from_commit server key w))
              (reply server w (commit_request (self w) key))
              key ("No build found for commit " ++ key)
  /\ lookup_spec (fst (get_build_url_from_branch server key w))
                 (reply server w (branch_request (self w) key))
                 key ("No build found for branch " ++ key).
Proof. split; [apply commit_lookup_run | apply branch_lookup_run]. Qed.

(** C6. When the count query reports zero artifacts, [get_job_artifacts]
    returns the empty list and the count query is the only request it sent;
    otherwise it sends one more request, the artifacts query with
    [artifact_count] set to the reported count. *)
Theorem artifacts_paging (w : World) (job_id : string)
    (regex_filter : option string) (body count : json) :
  reply server w (count_request (self w) job_id) = Ok body ->
  getpath body ["data"; "job"; "artifacts"; "count"] = Ok count ->
  let run := get_job_artifacts server re_compile job_id regex_filter w in
  (eq_zero count = true ->
   fst run = Ok [] /\ sent (snd run) = (sent w ++ [count_request (self w) job_id])%list)
  /\ (eq_zero count = false ->
      sent (snd run)
      = (sent w ++ [count_request (self w) job_id;
                    artifacts_request (self w) job_id count])%list).
Proof.
  intros Hrep Hcount run. unfold run.
  rewrite (get_job_artifacts_run job_id regex_filter w body count Hrep Hcount).
  split; intros Hz; rewrite Hz.
  - split; reflexivity.
  - cbv zeta. cbn [snd after sent self]. now rewrite <- app_assoc.
Qed.

(** C7. From the nodes of the reply, in their order: with a pattern, the
    call returns those whose download URL the pattern matches, each as often
    as it occurs; without a pattern it returns them all. *)
Theorem artifacts_filtered (w : World) (job_id : string) (edges nodes : list json) :
  lists_artifacts server w job_id edges ->
  Forall2 node_of edges nodes ->
  fst (get_job_artifacts server re_compile job_id None w) = Ok nodes
  /\ (forall pattern m,
         re_compile pattern = Ok m -> Forall has_url nodes ->
         fst (get_job_artifacts server re_compile job_id (Some pattern) w)
         = Ok (filter (keeps m) nodes)).
Proof.
  intros Hl Hn. split.
  - rewrite (get_job_artifacts_select w job_id None edges Hl).
    now apply select_all.
  - intros pattern m Hm Hu.
    rewrite (get_job_artifacts_select w job_id (Some pattern) edges Hl).
    now apply select_matching.
Qed.

(** C9. A node is returned exactly when the pattern matches some slice of
    its download URL, not necessarily the whole of it; the empty pattern
    returns every node. *)
Theorem artifacts_search (w : World) (job_id pattern : string) (m : matcher)
    (edges nodes : list json) :
  lists_artifacts server w job_id edges ->
  Forall2 node_of edges nodes -> Forall has_url nodes ->
  re_compile pattern = Ok m ->
  re_compile "" = Ok empty_matcher ->
  (exists kept,
      fst (get_job_artifacts server re_compile job_id (Some pattern) w) = Ok kept
      /\ forall node,
           In node kept
           <-> In node nodes
               /\ exists u i j,
                    getitem node "downloadURL" = Ok (JStr u)
                    /\ (i <= j <= String.length u)%nat
                    /\ m u i j = true)
  /\ fst (get_job_artifacts server re_compile job_id (Some "") w) = Ok nodes.
Proof.
  intros Hl Hn Hu Hm Hempty. split.
  - exists (filter (keeps m) nodes). split.
    + rewrite (get_job_artifacts_select w job_id (Some pattern) edges Hl).
      now apply select_matching.
    + intros node. rewrite filter_In. unfold keeps. split.
      * intros [Hin Hk]. split; [exact Hin|].
        destruct (getitem node "downloadURL") as [[]|]; try discriminate.
        apply search_spec in Hk. destruct Hk as [i [j [Hij Hmij]]].
        eauto 6.
      * intros [Hin [u [i [j [Hurl [Hij Hmij]]]]]]. split; [exact Hin|].
        rewrite Hurl. apply search_spec. eauto.
  - rewrite (get_job_artifacts_select w job_id (Some "") edges Hl).
    rewrite (select_matching "" empty_matcher edges nodes Hempty Hn Hu).
    now rewrite filter_keeps_empty.
Qed.

Lemma rmap_Forall2 {A B} (f : A -> result B) (l : list A) (l' : list B) :
  rmap f l = Ok l' -> Forall2 (fun a b => f a = Ok b) l l'.
Proof.
  revert l'. induction l as [|a l IH]; intros l' H; cbn [rmap] in H.
  - injection H as <-. constructor.
  - destruct (f a) as [b|] eqn:Hb; [|discriminate]. cbn [rbind] in H.
    destruct (rmap f l) as [bs|]; [|discriminate]. cbn [rbind] in H.
    injection H as <-. constructor; auto.
Qed.

Lemma as_str_inv (x : json) (s : string) : as_str x = Ok s -> x = JStr s.
Proof. destruct x; simpl; intros H; try discriminate. now injection H as ->. Qed.

Lemma as_int_inv (x : json) (z : Z) : as_int x = Ok z -> x = JInt z.
Proof. destruct x; simpl; intros H; try discriminate. now injection H as ->. Qed.

Ltac step_ok H :=
  match type of H with
  | rbind ?r _ = Ok _ =>
      let E := fresh "E" in
      destruct r eqn:E; [cbn [rbind] in H | discriminate H]
  end.

(** A translated build carries the state and the number of its node. *)
Lemma build_of_edge_fields (edge : json) (b : Build) :
  build_of_edge edge = Ok b ->
  getpath edge ["node"; "state"] = Ok (JStr (state b))
  /\ getpath edge ["node"; "number"] = Ok (JInt (number b)).
Proof.
  unfold build_of_edge. intros H.
  step_ok H. cbn [getpath]. rewrite E. cbn [rbind].
  do 11 step_ok H. step_ok H. step_ok H. step_ok H.
  injection H as <-. cbn [state number].
  repeat match goal with
         | Hs : as_str _ = Ok _ |- _ => apply as_str_inv in Hs
         | Hi : as_int _ = Ok _ |- _ => apply as_int_inv in Hi
         end.
  subst. split; reflexivity.
Qed.

Lemma get_user_builds_run (limit : Z) (show_finished : bool) (w : World) :
  let req := user_builds_request (self w) limit
               (if show_finished then [] else BUILD_RUNNING_STATES) in
  get_user_builds server limit show_finished w
  = (body <~ reply server w req ;;
     data <~ getitem body "data" ;;
     items <~ getpath data ["viewer"; "user"; "builds"; "edges"] ;;
     build_edges <~ py_iter items ;;
     rmap build_of_edge build_edges,
     after w req).
Proof.
  intros req. unfold get_user_builds, bind. rewrite graphql_post_run.
  fold (user_builds_request (self w) limit
          (if show_finished then [] else BUILD_RUNNING_STATES)).
  fold req.
  destruct (reply server w req) as [body|]; [|reflexivity].
  unfold lift. cbn [rbind].
  destruct (getitem body "data") as [data|]; [|reflexivity].
  cbn [rbind].
  destruct (getpath data _) as [items|]; [|reflexivity].
  cbn [rbind]. destruct (py_iter items); reflexivity.
Qed.

(** C3, amended. [get_user_builds] sends one query, with [limit] and with
    the running states as state filter, or no state when [show_finished] is
    set, and returns one build per edge of the reply, in the order of the
    reply: it neither filters nor truncates. Its result has only running
    builds, and at most [limit] of them, when the reply has. *)
Theorem user_builds_follow_reply (w : World) (limit : Z) (show_finished : bool)
    (body : json) (edges : list json) (builds : list Build) :
  let req := user_builds_request (self w) limit
               (if show_finished then [] else BUILD_RUNNING_STATES) in
  let run := get_user_builds server limit show_finished w in
  reply server w req = Ok body ->
  getpath body ["data"; "viewer"; "user"; "builds"; "edges"] = Ok (JList edges) ->
  rmap build_of_edge edges = Ok builds ->
  sent (snd run) = (sent w ++ [req])%list
  /\ fst run = Ok builds
  /\ Forall2 (fun edge b =>
                getpath edge ["node"; "state"] = Ok (JStr (state b))
                /\ getpath edge ["node"; "number"] = Ok (JInt (number b)))
             edges builds
  /\ ((forall edge st,
          In edge edges -> getpath edge ["node"; "state"] = Ok (JStr st) ->
          in_list st BUILD_RUNNING_STATES = true) ->
      forall b, In b builds -> in_list (state b) BUILD_RUNNING_STATES = true)
  /\ (Z.of_nat (List.length edges) <= limit ->
      Z.of_nat (List.length builds) <= limit).
Proof.
  intros req run Hrep Hedges Hbuilds. unfold run.
  pose proof (get_user_builds_run limit show_finished w) as Hrun.
  cbv zeta in Hrun. fold req in Hrun. rewrite Hrun, Hrep. cbn [rbind fst snd].
  cbn [getpath] in Hedges.
  destruct (getitem body "data") as [data|]; [|discriminate].
  cbn [rbind] in Hedges |- *.
  change (getpath data ["viewer"; "user"; "builds"; "edges"] = Ok (JList edges))
    in Hedges.
  rewrite Hedges. cbn [rbind py_iter]. rewrite Hbuilds.
  assert (HF : Forall2 (fun edge b =>
                getpath edge ["node"; "state"] = Ok (JStr (state b))
                /\ getpath edge ["node"; "number"] = Ok (JInt (number b)))
             edges builds).
  { apply rmap_Forall2 in Hbuilds. revert Hbuilds.
    apply Forall2_impl. exact build_of_edge_fields. }
  split; [reflexivity|]. split; [reflexivity|]. split; [exact HF|]. split.
  - intros Hall. clear - HF Hall. induction HF as [|edge b es bs [Hs _] _ IH].
    + intros b [].
    + intros b' [<-|Hin].
      * apply (Hall edge); [now left | exact Hs].
      * apply IH; [|exact Hin]. intros e st He. apply Hall. now right.
  - apply Forall2_length in HF. lia.
Qed.

(** ** The client object is only read *)

Lemma framed_pure {A} (r : result A) (w : World) : framed (lift r) w.
Proof.
  split; [reflexivity|]. exists []. split; [symmetry; apply app_nil_r | constructor].
Qed.

Lemma framed_ret {A} (a : A) (w : World) : framed (ret a) w.
Proof. apply (framed_pure (Ok a)). Qed.

Lemma framed_throw {A} (e : exn) (w : World) : framed (@throw A e) w.
Proof. apply (framed_pure (Raise e)). Qed.

Lemma framed_send (r : request) (w : World) :
  req_headers r = headers (self w) -> framed (send server r) w.
Proof.
  intros H. split; [reflexivity|]. exists [r]. split; [reflexivity|].
  constructor; [exact H | constructor].
Qed.

Lemma framed_bind {A B} (m : M A) (k : A -> M B) (w : World) :
  framed m w -> (forall a, framed (k a) (snd (m w))) -> framed (bind m k) w.
Proof.
  intros H Hk. unfold framed in *. unfold bind.
  destruct (m w) as [[a|e] w'] eqn:E; cbn [snd] in H;
    destruct H as [Hs [new [Hsent Hnew]]].
  - specialize (Hk a). cbn [snd] in Hk.
    destruct Hk as [Hs' [new' [Hsent' Hnew']]].
    split; [now rewrite Hs'|].
    exists (new ++ new')%list. split.
    + rewrite Hsent', Hsent. now rewrite app_assoc.
    + apply Forall_app. split; [exact Hnew|]. now rewrite <- Hs.
  - cbn [snd]. split; [exact Hs|]. exists new. auto.
Qed.

Lemma framed_with_self {A} (k : Buildkite -> M A) (w : World) :
  framed (k (self w)) w -> framed (bind get_self k) w.
Proof. intros H. exact H. Qed.

Ltac frame :=
  repeat first
    [ apply framed_ret
    | apply framed_throw
    | apply framed_pure
    | apply framed_send; reflexivity
    | apply framed_with_self
    | apply framed_bind; [|intros ?]
    | match goal with
      | |- framed (if ?c then _ else _) _ => destruct c
      end ].

Lemma framed_graphql_post (query : string) (variables : json) (w : World) :
  framed (_graphql_post server query variables) w.
Proof. unfold _graphql_post. frame. Qed.

Lemma framed_call (op : operation) (w : World) :
  framed (call server re_compile op) w.
Proof.
  destruct op; unfold call, fmap;
    (apply framed_bind; [|intros ?; apply framed_ret]).
  - unfold get_job_artifact_count. apply framed_bind; [|intros ?; frame].
    apply framed_graphql_post.
  - unfold get_job_artifacts, get_job_artifact_count.
    apply framed_bind.
    + apply framed_bind; [apply framed_graphql_post | intros ?; frame].
    + intros count. destruct (eq_zero count); [frame|].
      apply framed_bind; [apply framed_graphql_post | intros ?; frame].
  - unfold get_build_data, _rest_get. frame.
  - unfold get_artifact_content. frame.
  - unfold create_build, _rest_post. frame.
  - unfold get_build_url_from_commit.
    apply framed_bind; [apply framed_graphql_post | intros ?; frame].
  - unfold get_build_url_from_branch.
    apply framed_bind; [apply framed_graphql_post | intros ?; frame].
  - unfold get_user_builds.
    apply framed_bind; [apply framed_graphql_post | intros ?; frame].
Qed.

(** C10. However many operations are called on a client, and whatever they
    are given and however they end, the client object (its two base URLs,
    [org_name] and [headers]) is the same afterwards, and every request sent
    meanwhile carries exactly the client's headers; for a client set up by
    [__init__] these are the bearer token and the JSON content type. *)
Theorem client_state_unchanged (ops : list operation) (w : World)
    (org token : string) :
  (self (calls server re_compile ops w) = self w
   /\ exists new,
        sent (calls server re_compile ops w) = (sent w ++ new)%list
        /\ Forall (fun r => req_headers r = headers (self w)) new)
  /\ (let w1 := snd (__init__ org token w) in
      exists new,
        sent (calls server re_compile ops w1) = (sent w ++ new)%list
        /\ Forall (fun r =>
                     assoc "Authorization" (req_headers r)
                     = Some ("Bearer " ++ token)
                     /\ assoc "Content-Type" (req_headers r)
                        = Some "application/json") new).
Proof.
  assert (H : forall ops w,
             self (calls server re_compile ops w) = self w
             /\ exists new,
                  sent (calls server re_compile ops w) = (sent w ++ new)%list
                  /\ Forall (fun r => req_headers r = headers (self w)) new).
  { clear ops w. induction ops as [|op ops IH]; intros w; cbn [calls].
    - split; [reflexivity|]. exists []. split; [symmetry; apply app_nil_r | constructor].
    - destruct (framed_call op w) as [Hs [new [Hsent Hnew]]].
      destruct (IH (snd (call server re_compile op w))) as [Hs' [new' [Hsent' Hnew']]].
      split; [congruence|]. exists (new ++ new')%list. split.
      + rewrite Hsent', Hsent. now rewrite app_assoc.
      + apply Forall_app. split; [exact Hnew|]. now rewrite <- Hs. }
  split; [apply H|].
  intros w1. destruct (H ops w1) as [_ [new [Hsent Hnew]]].
  exists new. split; [exact Hsent|].
  revert Hnew. apply Forall_impl. intros r ->. split; reflexivity.
Qed.
End ClientProperties.

(** ** The properties on sample transports *)

Lemma build_url_lookup_witness :
  fst (get_build_url_from_commit (server_script [lookup_body []]) "abc123" world0)
  = Raise (BuildkiteNotFoundException "No build found for commit abc123")
  /\ fst (get_build_url_from_branch
            (server_script
               [lookup_body [url_edge "https://buildkite.com/retool/p/builds/7";
                             url_edge "https://buildkite.com/retool/p/builds/6"]])
            "main" world0)
     = Ok (JStr "https://buildkite.com/retool/p/builds/7").
Proof.
  split.
  - destruct (build_url_lookup (server_script [lookup_body []]) world0 "abc123")
      as [[_ H] _].
    destruct (H (lookup_body []) [] eq_refl eq_refl) as [_ [Hnf _]].
    exact (proj1 (Hnf eq_refl)).
  - destruct (build_url_lookup
                (server_script
                   [lookup_body [url_edge "https://buildkite.com/retool/p/builds/7";
                                 url_edge "https://buildkite.com/retool/p/builds/6"]])
                world0 "main") as [_ [_ H]].
    destruct (H _ _ eq_refl eq_refl) as [_ [_ Hfirst]].
    exact (Hfirst _ _ _ eq_refl eq_refl).
Defined.

(** The example of the specification: no edge for the commit ["abc123"]. *)
Example commit_abc123_not_found :
  exists msg,
    fst (get_build_url_from_commit (server_script [lookup_body []]) "abc123" world0)
    = Raise (BuildkiteNotFoundException msg)
    /\ contains "abc123" msg = true.
Proof. eexists. split; [vm_compute; reflexivity | reflexivity]. Qed.

(** A reply server with status 404 is an HTTP error, not a not-found error. *)
Example commit_http_error :
  fst (get_build_url_from_commit
         (fun _ _ => Some (mkResponse 404 (Some (lookup_body [])) ""))
         "abc123" world0)
  = Raise (HTTPError 404).
Proof. vm_compute. reflexivity. Qed.

Lemma artifacts_paging_witness :
  (let run := get_job_artifacts (server_script [count_body (JInt 0)])
                compile_literal "job-1" None world0 in
   (eq_zero (JInt 0) = true ->
    fst run = Ok []
    /\ sent (snd run) = (sent world0 ++ [count_request (self world0) "job-1"])%list)
   /\ (eq_zero (JInt 0) = false ->
       sent (snd run)
       = (sent world0 ++ [count_request (self world0) "job-1";
                          artifacts_request (self world0) "job-1" (JInt 0)])%list))
  /\ (let run := get_job_artifacts
                   (server_script [count_body (JInt 3);
                                   artifacts_body (map artifact_edge sample_urls)])
                   compile_literal "job-1" None world0 in
      (eq_zero (JInt 3) = true ->
       fst run = Ok []
       /\ sent (snd run) = (sent world0 ++ [count_request (self world0) "job-1"])%list)
      /\ (eq_zero (JInt 3) = false ->
          sent (snd run)
          = (sent world0 ++ [count_request (self world0) "job-1";
                             artifacts_request (self world0) "job-1" (JInt 3)])%list)).
Proof.
  split.
  - apply (artifacts_paging (server_script [count_body (JInt 0)]) compile_literal
             world0 "job-1" None (count_body (JInt 0)) (JInt 0)); reflexivity.
  - apply (artifacts_paging
             (server_script [count_body (JInt 3);
                             artifacts_body (map artifact_edge sample_urls)])
             compile_literal world0 "job-1" None (count_body (JInt 3)) (JInt 3));
      reflexivity.
Defined.

Lemma sample_lists_artifacts :
  lists_artifacts
    (server_script [count_body (JInt 3);
                    artifacts_body (map artifact_edge sample_urls)])
    world0 "job-1" (map artifact_edge sample_urls).
Proof.
  exists (count_body (JInt 3)), (JInt 3),
    (artifacts_body (map artifact_edge sample_urls)).
  repeat split; reflexivity.
Defined.

Lemma sample_nodes : Forall2 node_of (map artifact_edge sample_urls)
                       (map artifact_node sample_urls).
Proof. repeat constructor. Defined.

Lemma sample_have_url : Forall has_url (map artifact_node sample_urls).
Proof. repeat (constructor; [eexists; reflexivity|]). constructor. Defined.

Lemma artifacts_filtered_witness :
  let server := server_script [count_body (JInt 3);
                               artifacts_body (map artifact_edge sample_urls)] in
  let nodes := map artifact_node sample_urls in
  fst (get_job_artifacts server compile_literal "job-1" None world0) = Ok nodes
  /\ (forall pattern m,
         compile_literal pattern = Ok m -> Forall has_url nodes ->
         fst (get_job_artifacts server compile_literal "job-1" (Some pattern) world0)
         = Ok (filter (keeps m) nodes)).
Proof.
  exact (artifacts_filtered _ compile_literal world0 "job-1" _ _
           sample_lists_artifacts sample_nodes).
Defined.

(** With the pattern ["a.log"] the first and the third URL are kept, in
    that order and both, although no URL is ["a.log"] as a whole. *)
Example artifacts_filtered_sample :
  fst (get_job_artifacts
         (server_script [count_body (JInt 3);
                         artifacts_body (map artifact_edge sample_urls)])
         compile_literal "job-1" (Some "a.log") world0)
  = Ok [artifact_node "https://x/a.log"; artifact_node "https://x/a.log"]
  /\ forallb (fun u => negb (literal_matcher "a.log" u 0%nat (String.length u)))
       sample_urls = true.
Proof. vm_compute. split; reflexivity. Qed.

Lemma artifacts_search_witness :
  let server := server_script [count_body (JInt 3);
                               artifacts_body (map artifact_edge sample_urls)] in
  let nodes := map artifact_node sample_urls in
  (exists kept,
      fst (get_job_artifacts server compile_literal "job-1" (Some "a.log") world0)
      = Ok kept
      /\ forall node,
           In node kept
           <-> In node nodes
               /\ exists u i j,
                    getitem node "downloadURL" = Ok (JStr u)
                    /\ (i <= j <= String.length u)%nat
                    /\ literal_matcher "a.log" u i j = true)
  /\ fst (get_job_artifacts server compile_literal "job-1" (Some "") world0)
     = Ok nodes.
Proof.
  exact (artifacts_search _ compile_literal world0 "job-1" "a.log"
           (literal_matcher "a.log") _ _
           sample_lists_artifacts sample_nodes sample_have_url eq_refl eq_refl).
Defined.

(** C3, the counterexample: the reply holds two builds, the first of them
    passed; asked for one running build, the client returns both. *)
Lemma user_builds_unfiltered_counterexample :
  fst (get_user_builds (server_script [user_builds_body sample_build_edges])
         1 false world0)
  = Ok [mkBuild 42 "fix" sample_pipeline "PASSED" [mkJob "FINISHED" true];
        mkBuild 41 "fix" sample_pipeline "RUNNING" [mkJob "RUNNING" false]]
  /\ in_list "PASSED" BUILD_RUNNING_STATES = false
  /\ (1 < Z.of_nat (List.length sample_build_edges)).
Proof. vm_compute. repeat split; reflexivity. Qed.

Lemma user_builds_follow_reply_witness :
  let server := server_script [user_builds_body sample_build_edges] in
  let builds :=
    [mkBuild 42 "fix" sample_pipeline "PASSED" [mkJob "FINISHED" true];
     mkBuild 41 "fix" sample_pipeline "RUNNING" [mkJob "RUNNING" false]] in
  let req := user_builds_request (self world0) 2 [] in
  let run := get_user_builds server 2 true world0 in
  sent (snd run) = (sent world0 ++ [req])%list
  /\ fst run = Ok builds
  /\ Forall2 (fun edge b =>
                getpath edge ["node"; "state"] = Ok (JStr (state b))
                /\ getpath edge ["node"; "number"] = Ok (JInt (number b)))
             sample_build_edges builds
  /\ ((forall edge st,
          In edge sample_build_edges ->
          getpath edge ["node"; "state"] = Ok (JStr st) ->
          in_list st BUILD_RUNNING_STATES = true) ->
      forall b, In b builds -> in_list (state b) BUILD_RUNNING_STATES = true)
  /\ (Z.of_nat (List.length sample_build_edges) <= 2 ->
      Z.of_nat (List.length builds) <= 2).
Proof.
  exact (user_builds_follow_reply
           (server_script [user_builds_body sample_build_edges]) world0 2 true
           (user_builds_body sample_build_edges) sample_build_edges _
           eq_refl eq_refl eq_refl).
Defined.

(** * Further properties *)

(** ** Requests and failing replies *)

Lemma decode_failure (r : option response) (e : exn) :
  failure r = Some e -> decode r = Raise e.
Proof.
  destruct r as [resp|]; simpl.
  - unfold raise_for_status. destruct (_ && _); [|discriminate].
    intros H. injection H as <-. reflexivity.
  - intros H. injection H as <-. reflexivity.
Qed.

Section RequestProperties.

Variable server : list request -> request -> option response.
Variable re_compile : string -> result matcher.

Lemma rest_get_run (u : string) (w : World) :
  _rest_get server u w
  = (reply server w (mkRequest GET u (headers (self w)) None None),
     after w (mkRequest GET u (headers (self w)) None None)).
Proof.
  unfold _rest_get, reply, after, decode, bind, get_self, send, lift.
  destruct (server (sent w) _) as [resp|]; [|reflexivity].
  simpl. destruct (raise_for_status resp); reflexivity.
Qed.

Lemma rest_post_run (u : string) (body : json) (w : World) :
  _rest_post server u body w
  = (reply server w (mkRequest POST u (headers (self w)) (Some body) None),
     after w (mkRequest POST u (headers (self w)) (Some body) None)).
Proof.
  unfold _rest_post, reply, after, decode, bind, get_self, send, lift.
  destruct (server (sent w) _) as [resp|]; [|reflexivity].
  simpl. destruct (raise_for_status resp); reflexivity.
Qed.

Lemma get_build_data_run (pipeline_slug : string) (build_id : Z) (w : World) :
  let req := first_request (self w) (OpGetBuildData pipeline_slug build_id) in
  get_build_data server pipeline_slug build_id w = (reply server w req, after w req).
Proof.
  cbv zeta. unfold get_build_data, bind, get_self. cbn [fst snd].
  rewrite rest_get_run. reflexivity.
Qed.

Lemma create_build_run (pipeline_slug : string) (env : json) (w : World) :
  let req := first_request (self w) (OpCreateBuild pipeline_slug env) in
  create_build server pipeline_slug env w = (reply server w req, after w req).
Proof.
  cbv zeta. unfold create_build, bind, get_self. cbn [fst snd].
  rewrite rest_post_run. unfold ret. cbn [first_request].
  destruct (reply server w _); reflexivity.
Qed.

Lemma get_artifact_content_run (artifact_url : string) (w : World) :
  let req := first_request (self w) (OpGetArtifactContent artifact_url) in
  get_artifact_content server artifact_url w
  = (match server (sent w) req with
     | None => Raise TransportError
     | Some resp => _ <~ raise_for_status resp ;; Ok (content resp)
     end,
     after w req).
Proof.
  cbv zeta. unfold get_artifact_content, bind, get_self, send, lift, ret, after.
  cbn [first_request self sent].
  destruct (server (sent w) _) as [resp|]; [|reflexivity].
  destruct (raise_for_status resp); reflexivity.
Qed.

Lemma lookup_commit_run (commit_sha : string) (w : World) :
  snd (get_build_url_from_commit server commit_sha w)
  = after w (commit_request (self w) commit_sha)
  /\ forall e, reply server w (commit_request (self w) commit_sha) = Raise e ->
               fst (get_build_url_from_commit server commit_sha w) = Raise e.
Proof.
  unfold get_build_url_from_commit, bind. rewrite graphql_post_run.
  fold (commit_request (self w) commit_sha).
  destruct (reply server w _) as [body|e0].
  - split; [|discriminate]. unfold lift, throw.
    destruct (getitem body "data"); [|reflexivity].
    destruct (getpath _ _) as [edges|]; [|reflexivity].
    destruct (negb (truthy edges)); reflexivity.
  - split; [reflexivity|]. intros e H. now injection H as <-.
Qed.

Lemma lookup_branch_run (branch : string) (w : World) :
  snd (get_build_url_from_branch server branch w)
  = after w (branch_request (self w) branch)
  /\ forall e, reply server w (branch_request (self w) branch) = Raise e ->
               fst (get_build_url_from_branch server branch w) = Raise e.
Proof.
  unfold get_build_url_from_branch, bind. rewrite graphql_post_run.
  fold (branch_request (self w) branch).
  destruct (reply server w _) as [body|e0].
  - split; [|discriminate]. unfold lift, throw.
    destruct (getitem body "data"); [|reflexivity].
    destruct (getpath _ _) as [edges|]; [|reflexivity].
    destruct (negb (truthy edges)); reflexivity.
  - split; [reflexivity|]. intros e H. now injection H as <-.
Qed.

Lemma get_job_artifacts_trace (job_id : string) (regex_filter : option string)
    (w : World) :
  exists more,
    sent (snd (get_job_artifacts server re_compile job_id regex_filter w))
    = (sent w ++ count_request (self w) job_id :: more)%list
    /\ (more = [] \/ exists count, more = [artifacts_request (self w) job_id count]).
Proof.
  unfold get_job_artifacts, bind. rewrite get_job_artifact_count_run.
  destruct (reply server w _) as [body|e]; cbn [rbind].
  - destruct (getpath body _) as [count|e].
    + destruct (eq_zero count).
      * exists []. split; [reflexivity | now left].
      * rewrite graphql_post_run. cbn [self after].
        fold (artifacts_request (self w) job_id count).
        exists [artifacts_request (self w) job_id count]. split; [|eauto].
        destruct (reply server _ _) as [body2|e].
        -- unfold lift. destruct (_ <~ _ ;; _); unfold after; cbn [snd sent self];
             now rewrite <- app_assoc.
        -- unfold after. cbn [snd sent self]. now rewrite <- app_assoc.
    + exists []. split; [reflexivity | now left].
  - exists []. split; [reflexivity | now left].
Qed.

Lemma fmap_run {A B} (f : A -> B) (m : M A) (w : World) :
  fmap f m w
  = (match fst (m w) with Ok a => Ok (f a) | Raise e => Raise e end, snd (m w)).
Proof. unfold fmap, bind, ret. destruct (m w) as [[a|e] w']; reflexivity. Qed.

Lemma reply_failure (w : World) (req : request) (e : exn) :
  failure (server (sent w) req) = Some e -> reply server w req = Raise e.
Proof. apply decode_failure. Qed.

(** X1. Every operation sends its first request whatever happens, and nothing
    else, except that [get_job_artifacts] may send the artifacts query after
    it: there is no retry and no further page. *)
Theorem call_requests (op : operation) (w : World) :
  exists more,
    sent (snd (call server re_compile op w))
    = (sent w ++ first_request (self w) op :: more)%list
    /\ (more = []
        \/ exists job_id regex_filter count,
             op = OpGetJobArtifacts job_id regex_filter
             /\ more = [artifacts_request (self w) job_id count]).
Proof.
  destruct op as [job_id|job_id regex_filter|pipeline_slug build_id|artifact_url
                |pipeline_slug env|commit_sha|branch|limit show_finished];
    unfold call; rewrite fmap_run; cbn [snd first_request].
  - rewrite get_job_artifact_count_run. exists []. split; [reflexivity | now left].
  - destruct (get_job_artifacts_trace job_id regex_filter w) as [more [H1 H2]].
    exists more. split; [exact H1|].
    destruct H2 as [->|[count ->]]; [now left | right; eauto].
  - pose proof (get_build_data_run pipeline_slug build_id w) as H. cbv zeta in H.
    rewrite H. exists []. split; [reflexivity | now left].
  - pose proof (get_artifact_content_run artifact_url w) as H. cbv zeta in H.
    rewrite H. exists []. split; [reflexivity | now left].
  - pose proof (create_build_run pipeline_slug env w) as H. cbv zeta in H.
    rewrite H. exists []. split; [reflexivity | now left].
  - rewrite (proj1 (lookup_commit_run commit_sha w)).
    exists []. split; [reflexivity | now left].
  - rewrite (proj1 (lookup_branch_run branch w)).
    exists []. split; [reflexivity | now left].
  - pose proof (get_user_builds_run server limit show_finished w) as H.
    cbv zeta in H. rewrite H. exists []. split; [reflexivity | now left].
Qed.

(** X2. When the first request gets no reply, or a reply with a status from 400
    to 599, the operation raises the transport error or [HTTPError] with
    that status, whatever the body of the reply is, and sends nothing more. *)
Theorem call_failing_reply (op : operation) (w : World) (e : exn) :
  failure (server (sent w) (first_request (self w) op)) = Some e ->
  fst (call server re_compile op w) = Raise e
  /\ sent (snd (call server re_compile op w))
     = (sent w ++ [first_request (self w) op])%list.
Proof.
  intros Hf. pose proof (reply_failure w _ e Hf) as Hr.
  destruct op as [job_id|job_id regex_filter|pipeline_slug build_id|artifact_url
                |pipeline_slug env|commit_sha|branch|limit show_finished];
    unfold call; rewrite fmap_run; cbn [fst snd first_request] in *.
  - rewrite get_job_artifact_count_run, Hr. split; reflexivity.
  - unfold get_job_artifacts, bind. rewrite get_job_artifact_count_run, Hr.
    split; reflexivity.
  - pose proof (get_build_data_run pipeline_slug build_id w) as H. cbv zeta in H.
    cbn [first_request] in H. rewrite H, Hr. split; reflexivity.
  - pose proof (get_artifact_content_run artifact_url w) as H. cbv zeta in H.
    cbn [first_request] in H. rewrite H. cbn [fst snd]. split; [|reflexivity].
    unfold failure in Hf. destruct (server (sent w) _) as [resp|].
    + unfold raise_for_status. destruct (_ && _); [|discriminate].
      now injection Hf as <-.
    + now injection Hf as <-.
  - pose proof (create_build_run pipeline_slug env w) as H. cbv zeta in H.
    cbn [first_request] in H. rewrite H, Hr. split; reflexivity.
  - destruct (lookup_commit_run commit_sha w) as [H1 H2].
    rewrite H1, (H2 e Hr). split; reflexivity.
  - destruct (lookup_branch_run branch w) as [H1 H2].
    rewrite H1, (H2 e Hr). split; reflexivity.
  - pose proof (get_user_builds_run server limit show_finished w) as H.
    cbv zeta in H. rewrite H, Hr. split; reflexivity.
Qed.

(** [get_build_data] and [create_build] return the outcome of their one
    query as it is: the decoded body, of whatever shape, or the error. *)
Lemma rest_operations_pass_through (pipeline_slug : string) (build_id : Z)
    (env : json) (w : World) :
  fst (get_build_data server pipeline_slug build_id w)
  = reply server w (first_request (self w) (OpGetBuildData pipeline_slug build_id))
  /\ fst (create_build server pipeline_slug env w)
     = reply server w (first_request (self w) (OpCreateBuild pipeline_slug env)).
Proof.
  pose proof (get_build_data_run pipeline_slug build_id w) as H1.
  pose proof (create_build_run pipeline_slug env w) as H2.
  cbv zeta in H1, H2. rewrite H1, H2. split; reflexivity.
Qed.

(** X3. [get_artifact_content] returns the body of any reply whose status is
    not an error, whether or not that body is JSON. *)
Theorem artifact_content_raw (artifact_url : string) (w : World) (resp : response) :
  server (sent w) (first_request (self w) (OpGetArtifactContent artifact_url))
  = Some resp ->
  failure (Some resp) = None ->
  fst (get_artifact_content server artifact_url w) = Ok (content resp).
Proof.
  intros Hs Hf.
  pose proof (get_artifact_content_run artifact_url w) as H. cbv zeta in H.
  rewrite H, Hs. cbn [fst]. unfold failure in Hf. unfold raise_for_status.
  destruct (_ && _); [discriminate | reflexivity].
Qed.

(** X4. When the count cannot be read from the reply of the count query (the
    job is not a command job, so the reply has no [artifacts]), both
    [get_job_artifact_count] and [get_job_artifacts] raise the lookup error,
    and the artifacts query is not sent. *)
Theorem artifact_count_unreadable (job_id : string) (regex_filter : option string)
    (w : World) (body : json) (e : exn) :
  reply server w (count_request (self w) job_id) = Ok body ->
  getpath body ["data"; "job"; "artifacts"; "count"] = Raise e ->
  get_job_artifact_count server job_id w
  = (Raise e, after w (count_request (self w) job_id))
  /\ get_job_artifacts server re_compile job_id regex_filter w
     = (Raise e, after w (count_request (self w) job_id)).
Proof.
  intros Hr Hc. unfold get_job_artifacts, bind.
  rewrite get_job_artifact_count_run, Hr. cbn [rbind]. rewrite Hc.
  split; reflexivity.
Qed.

(** X6. A pattern that does not compile is reported only when there is an edge
    to test it on: with no edge the result is the empty list. *)
Theorem invalid_pattern_needs_an_edge (w : World) (job_id pattern : string)
    (edges : list json) (e : exn) :
  lists_artifacts server w job_id edges ->
  re_compile pattern = Raise e ->
  (edges = [] ->
   fst (get_job_artifacts server re_compile job_id (Some pattern) w) = Ok [])
  /\ (forall edge rest u,
         edges = edge :: rest ->
         getpath edge ["node"; "downloadURL"] = Ok u ->
         fst (get_job_artifacts server re_compile job_id (Some pattern) w)
         = Raise e).
Proof.
  intros Hl Hp.
  rewrite (get_job_artifacts_select server re_compile w job_id (Some pattern) edges Hl).
  split.
  - intros ->. reflexivity.
  - intros edge rest u -> Hu. rewrite select_cons, Hu. cbn [rbind].
    unfold re_search. rewrite Hp. reflexivity.
Qed.

(** X5. When the artifacts query fails, after a count that is not zero,
    [get_job_artifacts] raises the error of that query; the two requests
    were sent and there is no third. *)
Theorem artifacts_query_fails (job_id : string) (regex_filter : option string)
    (w : World) (body count : json) (e : exn) :
  reply server w (count_request (self w) job_id) = Ok body ->
  getpath body ["data"; "job"; "artifacts"; "count"] = Ok count ->
  eq_zero count = false ->
  failure (server (sent w ++ [count_request (self w) job_id])
             (artifacts_request (self w) job_id count)) = Some e ->
  get_job_artifacts server re_compile job_id regex_filter w
  = (Raise e,
     after (after w (count_request (self w) job_id))
       (artifacts_request (self w) job_id count)).
Proof.
  intros Hrep Hcount Hz Hf.
  rewrite (get_job_artifacts_run server re_compile job_id regex_filter w body count
             Hrep Hcount), Hz.
  cbv zeta.
  rewrite (reply_failure (after w (count_request (self w) job_id)) _ e Hf).
  reflexivity.
Qed.

(** ** Translating the reply of [get_user_builds] *)

Lemma job_of_edge_json (j : Job) : job_of_edge (json_of_job j) = Ok j.
Proof. destruct j. reflexivity. Qed.

Lemma rmap_job_of_edge_json (js : list Job) :
  rmap job_of_edge (map json_of_job js) = Ok js.
Proof.
  induction js as [|j js IH]; [reflexivity|].
  cbn [map rmap]. rewrite job_of_edge_json. cbn [rbind]. rewrite IH. reflexivity.
Qed.

Lemma build_of_edge_json (b : Build) : build_of_edge (json_of_build b) = Ok b.
Proof.
  destruct b as [n msg [pn pc ps] st js].
  unfold build_of_edge, json_of_build, obj1.
  cbn [getitem assoc String.eqb Ascii.eqb Bool.eqb rbind getpath py_iter
       name color slug pipeline number commit_message state jobs].
  rewrite rmap_job_of_edge_json. reflexivity.
Qed.

Lemma rmap_build_of_edge_json (bs : list Build) :
  rmap build_of_edge (map json_of_build bs) = Ok bs.
Proof.
  induction bs as [|b bs IH]; [reflexivity|].
  cbn [map rmap]. rewrite build_of_edge_json. cbn [rbind]. rewrite IH. reflexivity.
Qed.


Lemma get_user_builds_edges (limit : Z) (show_finished : bool) (w : World)
    (body : json) (edges : list json) :
  reply server w (user_builds_request (self w) limit
                    (if show_finished then [] else BUILD_RUNNING_STATES)) = Ok body ->
  getpath body ["data"; "viewer"; "user"; "builds"; "edges"] = Ok (JList edges) ->
  fst (get_user_builds server limit show_finished w) = rmap build_of_edge edges.
Proof.
  intros Hrep Hedges.
  pose proof (get_user_builds_run server limit show_finished w) as Hrun.
  cbv zeta in Hrun. rewrite Hrun, Hrep. cbn [rbind fst].
  cbn [getpath] in Hedges.
  destruct (getitem body "data") as [data|]; [|discriminate].
  cbn [rbind] in Hedges |- *.
  change (getpath data ["viewer"; "user"; "builds"; "edges"] = Ok (JList edges))
    in Hedges.
  rewrite Hedges. reflexivity.
Qed.

(** X7. Round trip: when the reply describes the builds [bs], each edge with
    the fields the query asks for, [get_user_builds] returns exactly [bs]:
    every field of every build and job, in the order of the reply. *)
Theorem user_builds_round_trip (limit : Z) (show_finished : bool) (w : World)
    (bs : list Build) :
  reply server w (user_builds_request (self w) limit
                    (if show_finished then [] else BUILD_RUNNING_STATES))
  = Ok (user_builds_body (map json_of_build bs)) ->
  fst (get_user_builds server limit show_finished w) = Ok bs.
Proof.
  intros Hrep.
  rewrite (get_user_builds_edges limit show_finished w _ _ Hrep eq_refl).
  apply rmap_build_of_edge_json.
Qed.


(** ** The lookups and an edges value that is not a list *)

Lemma lookup_commit_falsy (commit_sha : string) (w : World) (body edges : json) :
  reply server w (commit_request (self w) commit_sha) = Ok body ->
  getpath body ["data"; "pipeline"; "builds"; "edges"] = Ok edges ->
  is_not_found (fst (get_build_url_from_commit server commit_sha w))
  = negb (truthy edges).
Proof.
  intros Hrep Hedges.
  unfold get_build_url_from_commit, bind. rewrite graphql_post_run.
  fold (commit_request (self w) commit_sha). rewrite Hrep.
  pose proof Hedges as Hfull. unfold lift. cbn [getpath] in Hedges.
  destruct (getitem body "data") as [data|]; [|discriminate].
  cbn [rbind] in Hedges |- *.
  change (getpath data ["pipeline"; "builds"; "edges"] = Ok edges) in Hedges.
  rewrite Hedges, Hfull. cbn [rbind fst].
  destruct (truthy edges); cbn [negb throw fst]; [|reflexivity].
  apply rbind_not_found; [apply getitem0_not_found|].
  intros first. apply getpath_not_found.
Qed.

Lemma lookup_branch_falsy (branch : string) (w : World) (body edges : json) :
  reply server w (branch_request (self w) branch) = Ok body ->
  getpath body ["data"; "pipeline"; "builds"; "edges"] = Ok edges ->
  is_not_found (fst (get_build_url_from_branch server branch w))
  = negb (truthy edges).
Proof.
  intros Hrep Hedges.
  unfold get_build_url_from_branch, bind. rewrite graphql_post_run.
  fold (branch_request (self w) branch). rewrite Hrep.
  pose proof Hedges as Hfull. unfold lift. cbn [getpath] in Hedges.
  destruct (getitem body "data") as [data|]; [|discriminate].
  cbn [rbind] in Hedges |- *.
  change (getpath data ["pipeline"; "builds"; "edges"] = Ok edges) in Hedges.
  rewrite Hedges, Hfull. cbn [rbind fst].
  destruct (truthy edges); cbn [negb throw fst]; [|reflexivity].
  apply rbind_not_found; [apply getitem0_not_found|].
  intros first. apply getpath_not_found.
Qed.

(** X9. Whatever JSON value the reply holds as [edges], a lookup raises the
    not-found error exactly when that value is falsy: the empty list, but
    also [null], an empty object, an empty string, zero or [false]. *)
Theorem lookup_not_found_iff_falsy (key : string) (w : World)
    (body_c edges_c body_b edges_b : json) :
  reply server w (commit_request (self w) key) = Ok body_c ->
  getpath body_c ["data"; "pipeline"; "builds"; "edges"] = Ok edges_c ->
  reply server w (branch_request (self w) key) = Ok body_b ->
  getpath body_b ["data"; "pipeline"; "builds"; "edges"] = Ok edges_b ->
  (is_not_found (fst (get_build_url_from_commit server key w)) = true
   <-> truthy edges_c = false)
  /\ (is_not_found (fst (get_build_url_from_branch server key w)) = true
      <-> truthy edges_b = false).
Proof.
  intros Hc1 Hc2 Hb1 Hb2.
  rewrite (lookup_commit_falsy key w body_c edges_c Hc1 Hc2).
  rewrite (lookup_branch_falsy key w body_b edges_b Hb1 Hb2).
  split; apply negb_true_iff.
Qed.
End RequestProperties.

(** ** The build URL identifies the build *)

Lemma to_int_not_nil (z : Z) :
  Z.to_int z <> Decimal.Pos Decimal.Nil /\ Z.to_int z <> Decimal.Neg Decimal.Nil.
Proof.
  destruct z as [|p|p]; simpl; split; try discriminate;
    intros H; injection H as H; now apply DecimalPos.Unsigned.to_uint_nonnil in H.
Qed.

Lemma str_of_int_inj (a b : Z) : str_of_int a = str_of_int b -> a = b.
Proof.
  unfold str_of_int. intros H.
  apply (f_equal NilZero.int_of_string) in H.
  destruct (to_int_not_nil a) as [Ha1 Ha2], (to_int_not_nil b) as [Hb1 Hb2].
  rewrite !NilZero.isi in H by assumption.
  injection H as H. apply (f_equal Z.of_int) in H.
  now rewrite !DecimalZ.of_to in H.
Qed.

Lemma slash_not_in_uint (d : Decimal.uint) :
  str_in "/" (NilEmpty.string_of_uint d) = false.
Proof. induction d; simpl; auto. Qed.

Lemma slash_not_in_str_of_int (z : Z) : str_in "/" (str_of_int z) = false.
Proof.
  unfold str_of_int, NilZero.string_of_int.
  assert (H : forall d, str_in "/" (NilZero.string_of_uint d) = false).
  { intros d. destruct d; [reflexivity | ..];
      match goal with
      | |- str_in _ (NilZero.string_of_uint ?u) = false => exact (slash_not_in_uint u)
      end. }
  destruct (Z.to_int z) as [d|d]; [apply H|].
  change (String "-" (NilZero.string_of_uint d))
    with ("-" ++ NilZero.string_of_uint d).
  rewrite str_in_app, H. reflexivity.
Qed.

Lemma append_inv_head (p x y : string) : p ++ x = p ++ y -> x = y.
Proof.
  induction p as [|c p IH]; simpl; [auto|]. intros H. injection H as H. auto.
Qed.

Lemma append_inv_tail (t x y : string) : x ++ t = y ++ t -> x = y.
Proof.
  revert y. induction x as [|a x IH]; intros [|b y] H; simpl in H.
  - reflexivity.
  - apply (f_equal String.length) in H. simpl in H. rewrite length_append in H. lia.
  - apply (f_equal String.length) in H. simpl in H. rewrite length_append in H. lia.
  - injection H as -> H. f_equal. auto.
Qed.

(** Two texts that end in a separator and a part without it are equal only
    part by part. *)
Lemma split_at_last (sep : ascii) (x y d1 d2 : string) :
  str_in sep d1 = false -> str_in sep d2 = false ->
  x ++ String sep d1 = y ++ String sep d2 -> x = y /\ d1 = d2.
Proof.
  intros H1 H2. revert y. induction x as [|a x IH]; intros [|b y] H; simpl in H.
  - injection H as H. auto.
  - injection H as -> H. rewrite H, str_in_app in H1. simpl in H1.
    rewrite Ascii.eqb_refl, orb_true_r in H1. discriminate.
  - injection H as -> H. rewrite <- H, str_in_app in H2. simpl in H2.
    rewrite Ascii.eqb_refl, orb_true_r in H2. discriminate.
  - injection H as -> H. destruct (IH y H) as [-> ->]. auto.
Qed.

Lemma url_split (b : Build) :
  url b = (BASE_URL ++ "/" ++ slug (pipeline b) ++ "/builds")
          ++ String "/" (str_of_int (number b)).
Proof. unfold url. rewrite !append_assoc. reflexivity. Qed.

(** X10. The URL of a build determines its pipeline slug and its number: two
    builds with the same URL agree on both, whatever the slugs contain. *)
Theorem url_injective (b1 b2 : Build) :
  url b1 = url b2 ->
  slug (pipeline b1) = slug (pipeline b2) /\ number b1 = number b2.
Proof.
  rewrite !url_split. intros H.
  apply split_at_last in H; try apply slash_not_in_str_of_int.
  destruct H as [H Hn]. apply str_of_int_inj in Hn.
  rewrite <- !append_assoc in H. apply append_inv_tail in H.
  rewrite append_assoc in H. rewrite (append_assoc BASE_URL) in H.
  apply append_inv_head in H. apply append_inv_head in H. auto.
Qed.

(** ** What the line of a build depends on *)

Lemma filter_map_length {A B} (f : A -> B) (p : B -> bool) (l : list A) :
  List.length (filter (fun a => p (f a)) l) = List.length (filter p (map f l)).
Proof.
  induction l as [|a l IH]; [reflexivity|].
  cbn [filter map]. destruct (p (f a)); cbn [List.length]; now rewrite IH.
Qed.

(** X11. The line of a build depends only on the pipeline name, the number, the
    state and the states of the jobs: the commit message, the colour and
    the slug of the pipeline and the [passed] flags never show. *)
Theorem display_build_depends_on (b1 b2 : Build) :
  name (pipeline b1) = name (pipeline b2) ->
  number b1 = number b2 ->
  state b1 = state b2 ->
  map job_state (jobs b1) = map job_state (jobs b2) ->
  display_build b1 = display_build b2.
Proof.
  intros Hn Hnum Hst Hjobs. unfold display_build.
  rewrite Hn, Hnum, Hst.
  rewrite <- (length_map job_state (jobs b1)), <- (length_map job_state (jobs b2)).
  rewrite (filter_map_length job_state (fun s => in_list s JOB_FINISHED_STATES) (jobs b1)).
  rewrite (filter_map_length job_state (fun s => in_list s JOB_FINISHED_STATES) (jobs b2)).
  rewrite Hjobs. reflexivity.
Qed.

Lemma percent_digits (p : Z) : 0 <= p <= 100 -> (String.length (str_of_int p) <= 3)%nat.
Proof.
  intros Hp.
  assert (H : forallb (fun n => String.length (str_of_int (Z.of_nat n)) <=? 3)%nat
                (seq 0 101) = true) by (vm_compute; reflexivity).
  rewrite forallb_forall in H.
  specialize (H (Z.to_nat p)). rewrite Z2Nat.id in H by lia.
  apply Nat.leb_le. apply H. apply in_seq. lia.
Qed.

(** X12. Columns: for a build with at least one job, a pipeline name of at most
    50 characters and a number of at most 10, the text ["% finished"] starts
    after exactly 67 characters, so the lines of such builds are aligned. *)
Theorem display_build_columns (b : Build) :
  jobs b <> [] -> total_jobs b < 2 ^ 46 ->
  (String.length (name (pipeline b)) <= 50)%nat ->
  (String.length (str_of_int (number b)) <= 10)%nat ->
  exists pre rest,
    display_build b = Ok (pre ++ "% finished" ++ rest)
    /\ String.length pre = 67%nat.
Proof.
  intros Hj H46 Hname Hnum.
  pose proof (finished_le_total b) as Hf.
  pose proof (total_jobs_pos b Hj) as Hn.
  destruct (py_truediv_percent_fmt _ _ Hf Hn H46) as [x [Hx Hfmt]].
  pose proof (percent_digits _ (rne_div_percent_bounds _ _ Hf Hn)) as Hd.
  rewrite <- Hfmt in Hd.
  exists (ljust 50 (name (pipeline b)) ++ " " ++ ljust 10 (str_of_int (number b))
          ++ rjust 6 (fmt_f0 x)),
         ("    " ++ rstrip ("State: " ++ state b)).
  split.
  - rewrite (display_build_layout b x Hx). unfold layout.
    now rewrite !append_assoc.
  - rewrite !length_append, length_rjust, !length_ljust. simpl String.length. lia.
Qed.

(** ** The percentage as a measure of progress *)

Lemma rne_div_mono (a1 a2 y : Z) :
  0 < y -> a1 <= a2 -> rne_div a1 y <= rne_div a2 y.
Proof.
  intros Hy Ha.
  pose proof (rne_div_spec a1 y Hy) as H1. pose proof (rne_div_spec a2 y Hy) as H2.
  set (n1 := rne_div a1 y) in *. set (n2 := rne_div a2 y) in *.
  unfold rne_spec in H1, H2.
  assert (Hc : n1 <= n2 \/ n2 + 1 <= n1) by lia.
  destruct Hc as [Hc|Hc]; [exact Hc | exfalso].
  assert (Hn : n2 * y + y <= n1 * y) by nia.
  assert (a1 = a2 \/ a1 < a2) as [E|E] by lia.
  - subst a2. assert (n1 = n2) by (apply (rne_spec_unique a1 y); assumption). lia.
  - destruct H1 as [H1|[H1 _]], H2 as [H2|[H2 _]]; lia.
Qed.

Lemma rne_div_full (f n : Z) :
  0 <= f <= n -> 0 < n -> n < 200 -> (rne_div (100 * f) n = 100 <-> f = n).
Proof.
  intros Hf Hn H200. split.
  - intros H. pose proof (rne_div_spec (100 * f) n Hn) as Hs. rewrite H in Hs.
    unfold rne_spec in Hs. destruct Hs as [Hs|[Hs _]]; lia.
  - intros ->. apply rne_div_unique; [exact Hn|]. left.
    replace (100 * n - 100 * n) with 0 by ring. simpl. lia.
Qed.

Lemma display_build_shows (b : Build) :
  jobs b <> [] -> total_jobs b < 2 ^ 46 ->
  display_build b
  = Ok (layout b (str_of_int (rne_div (100 * finished_jobs b) (total_jobs b)))).
Proof.
  intros Hj H46.
  destruct (py_truediv_percent_fmt _ _ (finished_le_total b) (total_jobs_pos b Hj) H46)
    as [x [Hx Hfmt]].
  rewrite (display_build_layout b x Hx), Hfmt. reflexivity.
Qed.

(** X13. For a build of fewer than 200 jobs, as [get_user_builds] returns them,
    the line shows 100 percent exactly when every job is in a finished
    state. *)
Theorem display_build_full (b : Build) :
  jobs b <> [] -> total_jobs b < 200 ->
  exists p,
    display_build b = Ok (layout b (str_of_int p))
    /\ (p = 100 <-> finished_jobs b = total_jobs b).
Proof.
  intros Hj H200. exists (rne_div (100 * finished_jobs b) (total_jobs b)). split.
  - apply display_build_shows; [exact Hj | lia].
  - apply rne_div_full; [apply finished_le_total | now apply total_jobs_pos | exact H200].
Qed.

(** With 200 jobs the line shows 100 percent while one job is running. *)
Example display_build_full_early :
  let b := mkBuild 1 "" sample_pipeline "RUNNING"
             (mkJob "RUNNING" false :: repeat (mkJob "FINISHED" true) 199) in
  display_build b = Ok (layout b "100") /\ finished_jobs b = 199 /\ total_jobs b = 200.
Proof. vm_compute. repeat split; reflexivity. Qed.

(** X14. Of two builds with the same number of jobs, the one with more finished
    jobs never shows the smaller percentage. *)
Theorem display_build_monotone (b1 b2 : Build) :
  jobs b1 <> [] -> total_jobs b1 < 2 ^ 46 ->
  total_jobs b1 = total_jobs b2 ->
  finished_jobs b1 <= finished_jobs b2 ->
  exists p1 p2,
    display_build b1 = Ok (layout b1 (str_of_int p1))
    /\ display_build b2 = Ok (layout b2 (str_of_int p2))
    /\ p1 <= p2.
Proof.
  intros Hj H46 Ht Hf.
  assert (Hj2 : jobs b2 <> []).
  { pose proof (total_jobs_pos b1 Hj) as Hp. rewrite Ht in Hp.
    unfold total_jobs in Hp. destruct (jobs b2); [simpl in Hp; lia | discriminate]. }
  exists (rne_div (100 * finished_jobs b1) (total_jobs b1)),
         (rne_div (100 * finished_jobs b2) (total_jobs b2)).
  split; [now apply display_build_shows|].
  split; [apply display_build_shows; [exact Hj2 | lia]|].
  rewrite <- Ht. apply rne_div_mono; [now apply total_jobs_pos | lia].
Qed.

(** ** The commands of kite.py *)

Lemma lstrip_not_starting_space (s : string) : starts_with_space (lstrip s) = false.
Proof.
  induction s as [|c s IH]; simpl; [reflexivity|].
  destruct (is_space c) eqn:Hc; [exact IH | simpl; exact Hc].
Qed.

Lemma rstrip_keeps_start (s : string) :
  starts_with_space s = false -> starts_with_space (rstrip s) = false.
Proof.
  destruct s as [|c s]; simpl; [reflexivity|]. intros Hc.
  destruct (rstrip s); [rewrite Hc|]; simpl; auto.
Qed.

Lemma strip_clean (s : string) :
  starts_with_space (strip s) = false /\ ends_with_space (strip s) = false.
Proof.
  unfold strip. split.
  - apply rstrip_keeps_start, lstrip_not_starting_space.
  - apply rstrip_not_ending_space.
Qed.

Section CommandProperties.

Variable server : list request -> request -> option response.
Variable getenv : string -> option string.
Variable stdout_of : list string -> string.
Variable gum_choose : list Build -> (Build -> result string) -> result Build.

Lemma commit_run (arg : option string) (t : Terminal) :
  Kite.commit server stdout_of arg t
  = lookup_end t (Kite.git_runs arg ["git"; "rev-parse"; "HEAD"])
      (get_build_url_from_commit server
         (Kite.key_of stdout_of arg ["git"; "rev-parse"; "HEAD"]) (net t)).
Proof.
  unfold Kite.commit, lookup_end, cbind, client.
  destruct arg as [[|c s]|];
    cbn [Kite.key_of Kite.git_runs cret Kite.subprocess_stdout net printed
         opened ran offered];
    destruct (get_build_url_from_commit server _ (net t)) as [[u|e] w1];
    cbn [fst snd]; try destruct e;
    unfold webbrowser_open, print;
    cbn [net printed opened ran offered]; rewrite ?app_nil_r; reflexivity.
Qed.

Lemma branch_run (arg : option string) (t : Terminal) :
  Kite.branch server stdout_of arg t
  = lookup_end t (Kite.git_runs arg ["git"; "branch"; "--show-current"])
      (get_build_url_from_branch server
         (Kite.key_of stdout_of arg ["git"; "branch"; "--show-current"]) (net t)).
Proof.
  unfold Kite.branch, lookup_end, cbind, client.
  destruct arg as [[|c s]|];
    cbn [Kite.key_of Kite.git_runs cret Kite.subprocess_stdout net printed
         opened ran offered];
    destruct (get_build_url_from_branch server _ (net t)) as [[u|e] w1];
    cbn [fst snd]; try destruct e;
    unfold webbrowser_open, print;
    cbn [net printed opened ran offered]; rewrite ?app_nil_r; reflexivity.
Qed.

Lemma lookup_end_net (t : Terminal) (runs : list (list string))
    (r : result json * World) :
  net (snd (lookup_end t runs r)) = snd r
  /\ ran (snd (lookup_end t runs r)) = (ran t ++ runs)%list.
Proof.
  unfold lookup_end. destruct (fst r) as [u|e]; [split; reflexivity|].
  destruct e; split; reflexivity.
Qed.

Lemma lookup_end_spec (t : Terminal) (runs : list (list string))
    (r : result json * World) (rep : result json) (key msg : string) :
  lookup_spec (fst r) rep key msg ->
  Kite.lookup_command_spec (lookup_end t runs r) t rep msg.
Proof.
  intros [Hfail Hok]. unfold Kite.lookup_command_spec, lookup_end. split.
  - intros e He. destruct (Hfail e He) as [Hr Hnf]. rewrite Hr in Hnf |- *.
    destruct e; try discriminate Hnf; repeat split; reflexivity.
  - intros body edges Hrep Hedges.
    destruct (Hok body edges Hrep Hedges) as [_ [Hempty Hfirst]]. split.
    + intros Hnil. destruct (Hempty Hnil) as [Hr _]. rewrite Hr.
      repeat split; reflexivity.
    + intros first rest u He Hu. rewrite (Hfirst first rest u He Hu).
      repeat split; reflexivity.
Qed.

(** X15. A lookup command uses its argument when one is given and not empty,
    and then runs no git command; otherwise it runs git once and looks up
    the output without its surrounding white space. Either way it sends
    exactly one query, for that value. *)
Theorem lookup_command_key (arg : option string) (t : Terminal) :
  let sha := Kite.key_of stdout_of arg ["git"; "rev-parse"; "HEAD"] in
  let name := Kite.key_of stdout_of arg ["git"; "branch"; "--show-current"] in
  let out_c := Kite.commit server stdout_of arg t in
  let out_b := Kite.branch server stdout_of arg t in
  (sent (net (snd out_c))
   = (sent (net t) ++ [commit_request (self (net t)) sha])%list
   /\ ran (snd out_c)
      = (ran t ++ Kite.git_runs arg ["git"; "rev-parse"; "HEAD"])%list)
  /\ (sent (net (snd out_b))
      = (sent (net t) ++ [branch_request (self (net t)) name])%list
      /\ ran (snd out_b)
         = (ran t ++ Kite.git_runs arg ["git"; "branch"; "--show-current"])%list)
  /\ (forall argv,
         starts_with_space (strip (stdout_of argv)) = false
         /\ ends_with_space (strip (stdout_of argv)) = false).
Proof.
  cbv zeta. rewrite commit_run, branch_run. split; [|split].
  - destruct (lookup_end_net t (Kite.git_runs arg ["git"; "rev-parse"; "HEAD"])
                (get_build_url_from_commit server
                   (Kite.key_of stdout_of arg ["git"; "rev-parse"; "HEAD"]) (net t)))
      as [-> ->].
    rewrite (proj1 (lookup_commit_run server _ (net t))). split; reflexivity.
  - destruct (lookup_end_net t (Kite.git_runs arg ["git"; "branch"; "--show-current"])
                (get_build_url_from_branch server
                   (Kite.key_of stdout_of arg ["git"; "branch"; "--show-current"])
                   (net t)))
      as [-> ->].
    rewrite (proj1 (lookup_branch_run server _ (net t))). split; reflexivity.
  - intros argv. apply strip_clean.
Qed.

(** X16. The outcome of a lookup command. When the query finds no build, the
    command prints the not-found message, opens nothing and ends normally;
    when it finds builds, the command opens the URL of the first and
    prints nothing; a failed query ends the command with the error of the
    query, nothing printed and nothing opened. *)
Theorem lookup_command_outcome (arg : option string) (t : Terminal) :
  let sha := Kite.key_of stdout_of arg ["git"; "rev-parse"; "HEAD"] in
  let name := Kite.key_of stdout_of arg ["git"; "branch"; "--show-current"] in
  Kite.lookup_command_spec (Kite.commit server stdout_of arg t) t
    (reply server (net t) (commit_request (self (net t)) sha))
    ("No build found for commit " ++ sha)
  /\ Kite.lookup_command_spec (Kite.branch server stdout_of arg t) t
       (reply server (net t) (branch_request (self (net t)) name))
       ("No build found for branch " ++ name).
Proof.
  cbv zeta. rewrite commit_run, branch_run. split.
  - eapply lookup_end_spec. apply commit_lookup_run.
  - eapply lookup_end_spec. apply branch_lookup_run.
Qed.

(** X17. [kite build N] opens the page that [Build.url] gives for build [N] of
    the pipeline [retool-development-dot-tests]; it sends no request. *)
Theorem build_command_url (b : Build) (t : Terminal) :
  slug (pipeline b) = "retool-development-dot-tests" ->
  Kite.build (str_of_int (number b)) t
  = (Ok tt, mkTerminal (net t) (printed t) (opened t ++ [JStr (url b)]) (ran t)
              (offered t)).
Proof.
  intros Hs. unfold Kite.build, webbrowser_open, url. rewrite Hs. reflexivity.
Qed.

(** X18. The command [builds]: when the call fails, nothing is printed and the
    picker is not shown. Otherwise the picker is shown with the builds as
    they were returned, also when there are none, in which case the hint
    is printed first; the command then opens the URL of the build picked,
    or ends with the error of the picker. *)
Theorem builds_command (limit : Z) (show_finished : bool) (t : Terminal) :
  let out := Kite.builds server gum_choose limit show_finished t in
  match fst (get_user_builds server limit show_finished (net t)) with
  | Raise e =>
      fst out = Raise e
      /\ printed (snd out) = printed t
      /\ offered (snd out) = offered t
      /\ opened (snd out) = opened t
  | Ok bs =>
      printed (snd out)
      = (printed t
         ++ match bs with
            | [] => ["No builds found, use --show-finished to show previous builds"]
            | _ => []
            end)%list
      /\ offered (snd out) = (offered t ++ [bs])%list
      /\ match gum_choose bs display_build with
         | Ok b =>
             fst out = Ok tt /\ opened (snd out) = (opened t ++ [JStr (url b)])%list
         | Raise e => fst out = Raise e /\ opened (snd out) = opened t
         end
  end.
Proof.
  cbv zeta. unfold Kite.builds, cbind, client.
  destruct (get_user_builds server limit show_finished (net t)) as [[bs|e] w1];
    cbn [fst snd]; [|repeat split; reflexivity].
  destruct bs as [|b0 bs];
    unfold print, cret, Kite.choose, webbrowser_open;
    cbn [fst snd net printed opened ran offered];
    destruct (gum_choose _ display_build);
    cbn [fst snd net printed opened ran offered]; rewrite ?app_nil_r;
    repeat split; reflexivity.
Qed.

(** X19. The requests of a command line: the client is set up for the
    organisation [retool] with the token of the environment, the empty
    string when [BUILDKITE_TOKEN] is not set (a missing token is not
    reported), and the command sends one query with these headers, or none
    for [build], whatever the replies and the picker do. *)
Theorem command_requests (cmd : Kite.command) (t : Terminal) :
  let me :=
    mkBuildkite "https://api.buildkite.com/v2" "https://graphql.buildkite.com/v1"
      "retool"
      [("Authorization", "Bearer " ++ Kite.token getenv);
       ("Content-Type", "application/json")] in
  sent (net (snd (Kite.run server getenv stdout_of gum_choose cmd t)))
  = (sent (net t)
     ++ match cmd with
        | Kite.CmdCommit arg =>
            [commit_request me
               (Kite.key_of stdout_of arg ["git"; "rev-parse"; "HEAD"])]
        | Kite.CmdBranch arg =>
            [branch_request me
               (Kite.key_of stdout_of arg ["git"; "branch"; "--show-current"])]
        | Kite.CmdBuild _ => []
        | Kite.CmdBuilds limit show_finished =>
            [user_builds_request me limit
               (if show_finished then [] else BUILD_RUNNING_STATES)]
        end)%list.
Proof.
  cbv zeta. unfold Kite.run, cbind, Kite.kite, client.
  unfold __init__, bind, get_self, put_self. cbn [self sent net printed opened ran offered].
  fold (Kite.token getenv).
  set (me := mkBuildkite _ _ _ _).
  set (t1 := mkTerminal _ _ _ _ _).
  assert (Hn : net t1 = mkWorld me (sent (net t))) by reflexivity.
  destruct cmd as [arg|arg|build_number|limit show_finished].
  - rewrite commit_run.
    destruct (lookup_end_net t1 (Kite.git_runs arg ["git"; "rev-parse"; "HEAD"])
                (get_build_url_from_commit server
                   (Kite.key_of stdout_of arg ["git"; "rev-parse"; "HEAD"]) (net t1)))
      as [-> _].
    rewrite (proj1 (lookup_commit_run server _ (net t1))), Hn. reflexivity.
  - rewrite branch_run.
    destruct (lookup_end_net t1 (Kite.git_runs arg ["git"; "branch"; "--show-current"])
                (get_build_url_from_branch server
                   (Kite.key_of stdout_of arg ["git"; "branch"; "--show-current"])
                   (net t1)))
      as [-> _].
    rewrite (proj1 (lookup_branch_run server _ (net t1))), Hn. reflexivity.
  - unfold Kite.build, webbrowser_open. cbn [snd net]. rewrite Hn.
    cbn [sent]. now rewrite app_nil_r.
  - unfold Kite.builds, cbind, client.
    pose proof (get_user_builds_run server limit show_finished (net t1)) as Hrun.
    cbv zeta in Hrun. rewrite Hrun, Hn. cbn [self sent].
    destruct (_ <~ reply server _ _ ;; _) as [bs|e]; [|reflexivity].
    destruct bs as [|b0 bs];
      unfold print, cret, Kite.choose, webbrowser_open;
      cbn [fst snd net printed opened ran offered];
      destruct (gum_choose _ display_build); reflexivity.
Qed.

End CommandProperties.

(** ** The further properties on samples *)

Lemma call_failing_reply_witness :
  fst (call (server_always (mkResponse 500 (Some (user_builds_body sample_build_edges)) ""))
         compile_literal (OpGetUserBuilds 10 false) world0)
  = Raise (HTTPError 500)
  /\ sent (snd (call (server_always
                        (mkResponse 500 (Some (user_builds_body sample_build_edges)) ""))
                  compile_literal (OpGetUserBuilds 10 false) world0))
     = (sent world0 ++ [first_request (self world0) (OpGetUserBuilds 10 false)])%list.
Proof.
  apply (call_failing_reply
           (server_always (mkResponse 500 (Some (user_builds_body sample_build_edges)) ""))
           compile_literal (OpGetUserBuilds 10 false) world0 (HTTPError 500)).
  reflexivity.
Defined.

Lemma artifact_content_raw_witness :
  fst (get_artifact_content (server_always (mkResponse 200 None "PK"))
         "https://x/a.zip" world0)
  = Ok "PK".
Proof.
  apply (artifact_content_raw (server_always (mkResponse 200 None "PK"))
           "https://x/a.zip" world0 (mkResponse 200 None "PK")); reflexivity.
Defined.

Lemma artifact_count_unreadable_witness :
  let server := server_script [obj1 "data" (obj1 "job" (JObj []))] in
  get_job_artifact_count server "job-1" world0
  = (Raise (KeyError "artifacts"), after world0 (count_request (self world0) "job-1"))
  /\ get_job_artifacts server compile_literal "job-1" None world0
     = (Raise (KeyError "artifacts"),
        after world0 (count_request (self world0) "job-1")).
Proof.
  apply (artifact_count_unreadable
           (server_script [obj1 "data" (obj1 "job" (JObj []))]) compile_literal
           "job-1" None world0 (obj1 "data" (obj1 "job" (JObj [])))
           (KeyError "artifacts")); reflexivity.
Defined.

Lemma no_artifacts_listed :
  lists_artifacts (server_script [count_body (JInt 3); artifacts_body []])
    world0 "job-1" [].
Proof.
  exists (count_body (JInt 3)), (JInt 3), (artifacts_body []).
  repeat split; reflexivity.
Defined.

Lemma invalid_pattern_needs_an_edge_witness :
  (@nil json = [] ->
   fst (get_job_artifacts (server_script [count_body (JInt 3); artifacts_body []])
          compile_checked "job-1" (Some "(") world0) = Ok [])
  /\ (forall edge rest u,
         @nil json = edge :: rest ->
         getpath edge ["node"; "downloadURL"] = Ok u ->
         fst (get_job_artifacts (server_script [count_body (JInt 3); artifacts_body []])
                compile_checked "job-1" (Some "(") world0)
         = Raise ReError).
Proof.
  exact (invalid_pattern_needs_an_edge _ compile_checked world0 "job-1" "(" []
           ReError no_artifacts_listed eq_refl).
Defined.

(** With one edge the same pattern is an error. *)
Example invalid_pattern_with_an_edge :
  fst (get_job_artifacts
         (server_script [count_body (JInt 3);
                         artifacts_body (map artifact_edge sample_urls)])
         compile_checked "job-1" (Some "(") world0)
  = Raise ReError.
Proof. vm_compute. reflexivity. Qed.

Lemma user_builds_round_trip_witness :
  fst (get_user_builds
         (server_script [user_builds_body (map json_of_build [build_half; build_eighth])])
         10 false world0)
  = Ok [build_half; build_eighth].
Proof.
  apply (user_builds_round_trip
           (server_script
              [user_builds_body (map json_of_build [build_half; build_eighth])])
           10 false world0 [build_half; build_eighth]).
  reflexivity.
Defined.


Lemma lookup_not_found_iff_falsy_witness :
  let server :=
    server_script
      [obj1 "data" (obj1 "pipeline" (obj1 "builds" (obj1 "edges" JNull)))] in
  (is_not_found (fst (get_build_url_from_commit server "abc123" world0)) = true
   <-> truthy JNull = false)
  /\ (is_not_found (fst (get_build_url_from_branch server "abc123" world0)) = true
      <-> truthy JNull = false).
Proof.
  apply (lookup_not_found_iff_falsy
           (server_script
              [obj1 "data" (obj1 "pipeline" (obj1 "builds" (obj1 "edges" JNull)))])
           "abc123" world0
           (obj1 "data" (obj1 "pipeline" (obj1 "builds" (obj1 "edges" JNull)))) JNull
           (obj1 "data" (obj1 "pipeline" (obj1 "builds" (obj1 "edges" JNull)))) JNull);
    reflexivity.
Defined.

Lemma url_injective_witness :
  slug (pipeline build_half) = slug (pipeline build_retitled)
  /\ number build_half = number build_retitled.
Proof. apply (url_injective build_half build_retitled). reflexivity. Defined.

Lemma display_build_depends_on_witness :
  display_build build_half = display_build build_retitled.
Proof. apply (display_build_depends_on build_half build_retitled); reflexivity. Defined.

Lemma display_build_columns_witness :
  exists pre rest,
    display_build build_half = Ok (pre ++ "% finished" ++ rest)
    /\ String.length pre = 67%nat.
Proof.
  apply (display_build_columns build_half);
    [discriminate | reflexivity | vm_compute; lia | vm_compute; lia].
Defined.

Lemma build_command_url_witness :
  Kite.build (str_of_int (number build_dot_tests)) terminal0
  = (Ok tt,
     mkTerminal (net terminal0) (printed terminal0)
       (opened terminal0 ++ [JStr (url build_dot_tests)]) (ran terminal0)
       (offered terminal0)).
Proof. apply (build_command_url build_dot_tests terminal0). reflexivity. Defined.

(** [kite commit] in a checkout whose head has no build: git is asked for
    the commit, the message is printed and no page is opened. *)
Lemma lookup_command_outcome_witness :
  let out := Kite.commit (server_script [lookup_body []])
               (fun _ => String "a" (String "b" (String "c" (String newline ""))))
               None terminal0 in
  fst out = Ok tt
  /\ printed (snd out) = ["No build found for commit abc"]
  /\ opened (snd out) = [].
Proof.
  destruct (lookup_command_outcome (server_script [lookup_body []])
              (fun _ => String "a" (String "b" (String "c" (String newline ""))))
              None terminal0) as [[_ H] _].
  destruct (H (lookup_body []) [] eq_refl eq_refl) as [Hnone _].
  exact (Hnone eq_refl).
Defined.

Lemma artifacts_query_fails_witness :
  let server := fun hist (_ : request) =>
                  match hist with
                  | [] => Some (ok_response (count_body (JInt 3)))
                  | _ => Some (mkResponse 503 None "")
                  end in
  get_job_artifacts server compile_literal "job-1" None world0
  = (Raise (HTTPError 503),
     after (after world0 (count_request (self world0) "job-1"))
       (artifacts_request (self world0) "job-1" (JInt 3))).
Proof.
  apply (artifacts_query_fails
           (fun hist (_ : request) =>
              match hist with
              | [] => Some (ok_response (count_body (JInt 3)))
              | _ => Some (mkResponse 503 None "")
              end)
           compile_literal "job-1" None world0 (count_body (JInt 3)) (JInt 3)
           (HTTPError 503)); reflexivity.
Defined.

Lemma display_build_full_witness :
  exists p,
    display_build build_half = Ok (layout build_half (str_of_int p))
    /\ (p = 100 <-> finished_jobs build_half = total_jobs build_half).
Proof. apply (display_build_full build_half); [discriminate | reflexivity]. Defined.

Lemma display_build_monotone_witness :
  exists p1 p2,
    display_build build_eighth = Ok (layout build_eighth (str_of_int p1))
    /\ display_build
         (mkBuild 43 "fix" sample_pipeline "RUNNING"
            (repeat (mkJob "FINISHED" true) 3 ++ repeat (mkJob "RUNNING" false) 5))
       = Ok (layout
               (mkBuild 43 "fix" sample_pipeline "RUNNING"
                  (repeat (mkJob "FINISHED" true) 3 ++ repeat (mkJob "RUNNING" false) 5))
               (str_of_int p2))
    /\ p1 <= p2.
Proof.
  apply (display_build_monotone build_eighth
           (mkBuild 43 "fix" sample_pipeline "RUNNING"
              (repeat (mkJob "FINISHED" true) 3 ++ repeat (mkJob "RUNNING" false) 5)));
    [discriminate | reflexivity | reflexivity | vm_compute; discriminate].
Defined.
